(** * CloudVault: file lifecycle, processing queue and API-key layer

    A shallow embedding of the CloudVault API and worker packages:

    - [file.service.ts]    the file registry ([prisma.file]);
    - [audit.service.ts]   the audit log ([prisma.auditLog]);
    - [queue.service.ts]   the producer side of the BullMQ queue;
    - [storage.service.ts] the pre-signed URL adapter;
    - [file.validators.ts] the zod schema of an upload request;
    - [auth.service.ts], [auth.middleware.ts]  API keys and permissions;
    - [file.routes.ts]     the file handlers and the listing;
    - [admin.routes.ts]    creation, listing and revocation of API keys;
    - [errors.ts], [index.ts]  the error classes and the error handler;
    - [file.worker.ts]     the worker's job dispatch.

    Tables are finite maps from the primary key to the row.  A handler is a
    computation over the [World] (registry, audit log, queue, pre-signer
    calls) that either returns or throws; what the outside supplies to one
    call (clock, generated ids, signer, digest) is collected in [Env].
    The model covers the runs in which the collaborators answer; the only
    exceptions raised by a collaborator are Prisma's "record not found" on
    [update] and its unique-constraint violation on [create].  Row
    timestamps ([createdAt], [updatedAt]) are maintained by the database
    and are not part of the model. *)

From Stdlib Require Import ZArith QArith String Ascii List Bool Lia.
From Stdlib Require Import HexadecimalString Qround Sorted Permutation.
From stdpp Require Import base gmap strings list fin_maps sorting.

Set Warnings "-register-all".
Local Open Scope string_scope.
Local Open Scope Z_scope.
Local Open Scope list_scope.

(** ** JSON values and JavaScript numbers *)

(** A JavaScript number: a finite double is a rational. *)
Inductive JsNumber :=
| Finite (q : Q)
| PosInfinity
| NegInfinity
| NaN.

Inductive Json :=
| JNull
| JBool (b : bool)
| JNum (n : JsNumber)
| JStr (s : string)
| JArr (xs : list Json)
| JObj (kvs : list (string * Json)).

(** ** shared/types.ts *)

Inductive FileStatus :=
| PENDING_UPLOAD
| UPLOADED
| PROCESSING
| PROCESSED
| FAILED
| DELETED.

#[global] Instance FileStatus_eq_dec : EqDecision FileStatus.
Proof. solve_decision. Defined.

Definition FileStatus_to_string (s : FileStatus) : string :=
  match s with
  | PENDING_UPLOAD => "PENDING_UPLOAD"
  | UPLOADED => "UPLOADED"
  | PROCESSING => "PROCESSING"
  | PROCESSED => "PROCESSED"
  | FAILED => "FAILED"
  | DELETED => "DELETED"
  end.

(** ** Rows of the [File] table *)

Module File.
Record t := mk {
  id : string;
  organizationId : string;
  bucket : string;
  key : string;
  originalName : string;
  mimeType : string;
  size : Z;
  checksum : option string;
  status : FileStatus;
  processingState : option Json;
  metadata : option Json;
  tags : list string;
  uploadedBy : option string
}.

Definition with_status (s : FileStatus) (f : t) : t :=
  mk (id f) (organizationId f) (bucket f) (key f) (originalName f)
     (mimeType f) (size f) (checksum f) s (processingState f)
     (metadata f) (tags f) (uploadedBy f).

Definition with_processingState (p : option Json) (f : t) : t :=
  mk (id f) (organizationId f) (bucket f) (key f) (originalName f)
     (mimeType f) (size f) (checksum f) (status f) p
     (metadata f) (tags f) (uploadedBy f).

Definition with_metadata (m : option Json) (f : t) : t :=
  mk (id f) (organizationId f) (bucket f) (key f) (originalName f)
     (mimeType f) (size f) (checksum f) (status f) (processingState f)
     m (tags f) (uploadedBy f).

Definition with_checksum (c : option string) (f : t) : t :=
  mk (id f) (organizationId f) (bucket f) (key f) (originalName f)
     (mimeType f) (size f) c (status f) (processingState f)
     (metadata f) (tags f) (uploadedBy f).
End File.

(** ** Rows of the [AuditLog] table *)

Module AuditLog.
Record t := mk {
  fileId : option string;
  organizationId : string;
  action : string;
  actor : string;
  ipAddress : option string;
  userAgent : option string;
  details : option Json;
  correlationId : option string
}.
End AuditLog.

(** ** BullMQ jobs (queue.service.ts, config/queue.ts) *)

Module FILE_JOBS.
Definition VALIDATE_FILE : string := "validate-file".
Definition GENERATE_CHECKSUM : string := "generate-checksum".
Definition EXTRACT_METADATA : string := "extract-metadata".
Definition GENERATE_THUMBNAIL : string := "generate-thumbnail".
End FILE_JOBS.

Module FileJobData.
Record t := mk {
  fileId : string;
  organizationId : string;
  key : string;
  bucket : string;
  mimeType : string;
  correlationId : option string
}.
End FileJobData.

Inductive BackoffType := exponential | fixed.

Module Backoff.
Record t := mk { type : BackoffType; delay : Z }.
End Backoff.

(** Job options; an absent field is [None]. *)
Module JobsOptions.
Record t := mk {
  priority : option Z;
  attempts : option Z;
  backoff : option Backoff.t
}.

(** BullMQ's [Queue.add] spreads the queue's [defaultJobOptions] under the
    options of the call: a field given by the call wins. *)
Definition merge (defaults opts : t) : t :=
  mk (match priority opts with Some p => Some p | None => priority defaults end)
     (match attempts opts with Some a => Some a | None => attempts defaults end)
     (match backoff opts with Some b => Some b | None => backoff defaults end).
End JobsOptions.

Module Job.
Record t := mk {
  name : string;
  data : FileJobData.t;
  opts : JobsOptions.t
}.
End Job.

(** ** Commands handed to the S3 pre-signer (storage.service.ts) *)

Inductive PresignCommand :=
| PutObjectCommand (Bucket Key ContentType : string) (ContentLength : Z)
    (Metadata : option (list (string * string)))
| GetObjectCommand (Bucket Key : string)
    (ResponseContentDisposition : option string).

(** ** Rows of the [ApiKey] table *)

Module ApiKey.
Record t := mk {
  id : string;
  keyPrefix : string;
  hashedKey : string;
  name : string;
  organizationId : string;
  permissions : list string;
  expiresAt : option Z;
  lastUsedAt : option Z
}.

Definition with_lastUsedAt (d : option Z) (k : t) : t :=
  mk (id k) (keyPrefix k) (hashedKey k) (name k) (organizationId k)
     (permissions k) (expiresAt k) d.
End ApiKey.

(** Queries auth.service.ts sends to the credential store, in the order
    they are sent. *)
Inductive ApiKeyQuery :=
| FindFirstByHashedKey (hash : string)
| CreateApiKey (id : string)
| UpdateLastUsedAt (id : string).

(** ** The world the API and the worker act on *)

Record World := mkWorld {
  files : gmap string File.t;
  auditLogs : list AuditLog.t;
  fileProcessingQueue : list Job.t;
  presigned : list PresignCommand;
  apiKeys : list ApiKey.t;
  apiKeyQueries : list ApiKeyQuery
}.

(** What the outside supplies to one call: the clock ([Date.now()], in
    milliseconds), the ids generated by [nanoid] and by the database, the
    S3 request signer, the process environment, the SHA-256 digest in
    hexadecimal, [Date.prototype.toISOString], the bytes drawn by
    [crypto.randomBytes] and whether the fire-and-forget write of
    [lastUsedAt] is lost. *)
Record Env := mkEnv {
  now : Z;
  nanoid : string;
  newRowId : string;
  getSignedUrl : PresignCommand -> Z -> string;
  S3_BUCKET : option string;
  uploadExpiry : Z;
  downloadExpiry : Z;
  development : bool;
  sha256_hex : string -> string;
  toISOString : Z -> string;
  entropy : nat -> Byte.byte;
  lastUsedWriteFails : bool
}.

(** ** Exceptions and the handler monad *)

Inductive Exn :=
| RecordNotFound
| UniqueConstraint
| TypeError
| Error (message : string).

Definition Exn_message (e : Exn) : string :=
  match e with
  | RecordNotFound => "Record to update not found."
  | UniqueConstraint => "Unique constraint failed on the fields: (`id`)"
  | TypeError => "Cannot destructure property of undefined"
  | Error message => message
  end.

Inductive Outcome (A : Type) :=
| Returned (a : A)
| Thrown (e : Exn).
Arguments Returned {A} a.
Arguments Thrown {A} e.

Definition M (A : Type) : Type := World -> Outcome A * World.

Definition ret {A} (a : A) : M A := fun w => (Returned a, w).
Definition throw {A} (e : Exn) : M A := fun w => (Thrown e, w).
Definition bind {A B} (m : M A) (k : A -> M B) : M B :=
  fun w =>
    match m w with
    | (Returned a, w') => k a w'
    | (Thrown e, w') => (Thrown e, w')
    end.

Notation "'await' x <- m ;; k" := (bind m (fun x => k))
  (at level 10, x name, m at level 99, k at level 200).
Notation "'await_' m ;; k" := (bind m (fun _ => k))
  (at level 10, m at level 99, k at level 200).

(** ** Requests and responses *)

Inductive ZodIssueCode := invalid_type | too_small | too_big | custom.

Module ZodIssue.
Record t := mk {
  code : ZodIssueCode;
  path : list string;
  message : option string
}.
End ZodIssue.

Module SerializedFile.
Record t := mk {
  id : string;
  originalName : string;
  mimeType : string;
  size : Z;
  checksum : option string;
  status : FileStatus;
  metadata : option Json;
  tags : list string
}.
End SerializedFile.

(** The JSON bodies the file routes and the middlewares send. *)
Inductive ResBody :=
| ErrorBody (code message : string)
| ErrorDetailsBody (code message : string) (details : list ZodIssue.t)
| DataBody (data : SerializedFile.t)
| DataMessageBody (data : SerializedFile.t) (message : string)
| DownloadUrlBody (downloadUrl expiresAt filename : string)
| UploadUrlBody (fileId uploadUrl key expiresAt : string)
| EmptyBody.

Module Response.
Record t := mk { statusCode : Z; json : ResBody }.
End Response.

Module AuthContext.
Record t := mk {
  organizationId : string;
  apiKeyId : string;
  permissions : list string;
  organizationName : string
}.
End AuthContext.

Module Request.
Record t := mk {
  auth : option AuthContext.t;
  params_id : string;
  correlationId : option string;
  body : Json
}.
End Request.

(** The error handler of [index.ts]; the message texts of library
    exceptions are shown in development only. *)
Definition errorHandler (env : Env) (err : Exn) : Response.t :=
  Response.mk 500
    (ErrorBody "INTERNAL_ERROR"
       (if development env then Exn_message err else "An error occurred")).

(** The wrapper of every handler, [try { ... } catch (error) {
    next(error) }], hands a thrown exception to [errorHandler]. *)
Definition route (env : Env) (m : M Response.t) (w : World)
  : Response.t * World :=
  match m w with
  | (Returned res, w') => (res, w')
  | (Thrown err, w') => (errorHandler env err, w')
  end.

(** ** file.service.ts *)

Module CreateFileParams.
Record t := mk {
  organizationId : string;
  bucket : string;
  key : string;
  originalName : string;
  mimeType : string;
  size : Z;
  uploadedBy : string;
  tags : option (list string);
  metadata : option Json
}.
End CreateFileParams.

Definition set_files (fs : gmap string File.t) (w : World) : World :=
  mkWorld fs (auditLogs w) (fileProcessingQueue w) (presigned w)
    (apiKeys w) (apiKeyQueries w).

(** [prisma.file.create]: the database generates the id, [newRowId]; a
    clash with an existing row violates the primary key. *)
Definition createFileRecord (env : Env) (params : CreateFileParams.t)
  : M File.t :=
  fun w =>
    let file :=
      File.mk (newRowId env)
        (CreateFileParams.organizationId params)
        (CreateFileParams.bucket params)
        (CreateFileParams.key params)
        (CreateFileParams.originalName params)
        (CreateFileParams.mimeType params)
        (CreateFileParams.size params)
        None
        PENDING_UPLOAD
        None
        (CreateFileParams.metadata params)
        (match CreateFileParams.tags params with
         | Some ts => ts
         | None => []
         end)
        (Some (CreateFileParams.uploadedBy params)) in
    match files w !! newRowId env with
    | Some _ => (Thrown UniqueConstraint, w)
    | None => (Returned file, set_files (<[newRowId env := file]> (files w)) w)
    end.

(** [prisma.file.findFirst] with
    [where: { id, organizationId, status: { not: DELETED } }]. *)
Definition getFileById (fileId organizationId : string)
  : M (option File.t) :=
  fun w =>
    match files w !! fileId with
    | Some f =>
        if bool_decide (File.id f = fileId)
           && bool_decide (File.organizationId f = organizationId)
           && negb (bool_decide (File.status f = DELETED))
        then (Returned (Some f), w)
        else (Returned None, w)
    | None => (Returned None, w)
    end.

(** [prisma.file.update] with [where: { id }]: throws when no row has
    the id. *)
Definition prisma_file_update (fileId : string) (data : File.t -> File.t)
  : M File.t :=
  fun w =>
    match files w !! fileId with
    | Some f =>
        (Returned (data f), set_files (<[fileId := data f]> (files w)) w)
    | None => (Thrown RecordNotFound, w)
    end.

Definition updateFileStatus (fileId organizationId : string)
    (status : FileStatus) (processingState : option Json) : M File.t :=
  prisma_file_update fileId
    (fun f =>
       let f' := File.with_status status f in
       match processingState with
       | Some p => File.with_processingState (Some p) f'
       | None => f'
       end).

Definition markFileUploaded (fileId organizationId : string) : M File.t :=
  updateFileStatus fileId organizationId UPLOADED None.

(** [checksum && { checksum }]: an absent or empty checksum is not
    written. *)
Definition updateFileMetadata (fileId : string) (metadata : Json)
    (checksum : option string) : M File.t :=
  prisma_file_update fileId
    (fun f =>
       let f' := File.with_metadata (Some metadata) f in
       let f'' :=
         match checksum with
         | Some c => if bool_decide (c = EmptyString) then f'
                     else File.with_checksum (Some c) f'
         | None => f'
         end in
       File.with_status PROCESSED f'').

Definition serializeFile (file : File.t) : SerializedFile.t :=
  SerializedFile.mk (File.id file) (File.originalName file)
    (File.mimeType file) (File.size file) (File.checksum file)
    (File.status file) (File.metadata file) (File.tags file).

(** ** audit.service.ts *)

Module AuditActions.
Definition UPLOAD_REQUESTED : string := "upload_requested".
Definition UPLOADED : string := "uploaded".
Definition DOWNLOAD_REQUESTED : string := "download_requested".
Definition PROCESSED : string := "processed".
Definition PROCESSING_FAILED : string := "processing_failed".
Definition DELETED : string := "deleted".
Definition ACCESSED : string := "accessed".
Definition API_KEY_CREATED : string := "api_key_created".
Definition API_KEY_REVOKED : string := "api_key_revoked".
End AuditActions.

Definition set_auditLogs (ls : list AuditLog.t) (w : World) : World :=
  mkWorld (files w) ls (fileProcessingQueue w) (presigned w)
    (apiKeys w) (apiKeyQueries w).

(** [prisma.auditLog.create] under [try]/[catch]: the function never
    throws. *)
Definition createAuditLog (params : AuditLog.t) : M unit :=
  fun w => (Returned tt, set_auditLogs (auditLogs w ++ [params]) w).

Definition softDeleteFile (fileId organizationId actor : string)
    (correlationId : option string) : M File.t :=
  await file <- prisma_file_update fileId (File.with_status DELETED) ;;
  await_ createAuditLog
    (AuditLog.mk (Some fileId) organizationId AuditActions.DELETED actor
       None None None correlationId) ;;
  ret file.

(** ** queue.service.ts *)

(** [defaultJobOptions] of the queue built by [getFileProcessingQueue]. *)
Definition defaultJobOptions : JobsOptions.t :=
  JobsOptions.mk None (Some 3) (Some (Backoff.mk exponential 1000)).

Definition set_fileProcessingQueue (q : list Job.t) (w : World) : World :=
  mkWorld (files w) (auditLogs w) q (presigned w)
    (apiKeys w) (apiKeyQueries w).

(** [queue.add(name, data, opts)] *)
Definition queue_add (name : string) (data : FileJobData.t)
    (opts : JobsOptions.t) : M unit :=
  fun w =>
    (Returned tt,
     set_fileProcessingQueue
       (fileProcessingQueue w
          ++ [Job.mk name data (JobsOptions.merge defaultJobOptions opts)])
       w).

Definition priority_only (p : Z) : JobsOptions.t :=
  JobsOptions.mk (Some p) None None.

(** The three [queue.add] calls under [Promise.all] are issued in the
    order they are written. *)
Definition enqueueFileProcessing (params : FileJobData.t) : M unit :=
  let jobData := params in
  await_ queue_add FILE_JOBS.VALIDATE_FILE jobData (priority_only 1) ;;
  await_ queue_add FILE_JOBS.GENERATE_CHECKSUM jobData (priority_only 2) ;;
  await_ queue_add FILE_JOBS.EXTRACT_METADATA jobData (priority_only 3) ;;
  if String.prefix "image/" (FileJobData.mimeType params)
  then queue_add FILE_JOBS.GENERATE_THUMBNAIL jobData (priority_only 4)
  else ret tt.

(** ** storage.service.ts *)

Definition dquote : string := String (ascii_of_nat 34) EmptyString.

(** [process.env.S3_BUCKET || 'cloudvault-files'] *)
Definition configured_bucket (env : Env) : string :=
  match S3_BUCKET env with
  | Some b => if bool_decide (b = EmptyString) then "cloudvault-files" else b
  | None => "cloudvault-files"
  end.

Definition set_presigned (cs : list PresignCommand) (w : World) : World :=
  mkWorld (files w) (auditLogs w) (fileProcessingQueue w) cs
    (apiKeys w) (apiKeyQueries w).

Definition sign (env : Env) (command : PresignCommand) (expiresIn : Z)
  : M string :=
  fun w =>
    (Returned (getSignedUrl env command expiresIn),
     set_presigned (presigned w ++ [command]) w).

Definition generateUploadUrl (env : Env) (key contentType : string)
    (contentLength : Z) (metadata : option (list (string * string)))
  : M (string * Z) :=
  let command :=
    PutObjectCommand (configured_bucket env) key contentType contentLength
      metadata in
  await url <- sign env command (uploadExpiry env) ;;
  let expiresAt := now env + uploadExpiry env * 1000 in
  ret (url, expiresAt).

(** [params.filename && { ResponseContentDisposition: ... }]: an absent or
    empty file name leaves the disposition out. *)
Definition generateDownloadUrl (env : Env) (key : string)
    (filename : option string) : M (string * Z) :=
  let command :=
    GetObjectCommand (configured_bucket env) key
      (match filename with
       | Some n =>
           if bool_decide (n = EmptyString) then None
           else Some ("attachment; filename=" +:+ dquote +:+ n +:+ dquote)
       | None => None
       end) in
  await url <- sign env command (downloadExpiry env) ;;
  let expiresAt := now env + downloadExpiry env * 1000 in
  ret (url, expiresAt).

(** ** file.validators.ts *)

Definition ALLOWED_MIME_TYPES : list string :=
  [ "application/pdf";
    "image/jpeg";
    "image/png";
    "image/gif";
    "image/webp";
    "text/csv";
    "text/plain";
    "application/json";
    "application/vnd.openxmlformats-officedocument.spreadsheetml.sheet";
    "application/vnd.ms-excel" ].

Definition MAX_FILE_SIZE : Z := 100 * 1024 * 1024.

(** [Array.prototype.includes] on an array of strings *)
Definition includes (xs : list string) (x : string) : bool :=
  existsb (String.eqb x) xs.

(** [Number.isInteger] *)
Definition Number_isInteger (n : JsNumber) : bool :=
  match n with
  | Finite q => bool_decide (Qden (Qred q) = 1%positive)
  | _ => false
  end.

(** [n <= z] and [n > z] on JavaScript numbers, for an integer [z] *)
Definition Number_le (n : JsNumber) (z : Z) : bool :=
  match n with
  | Finite q => Qle_bool q (inject_Z z)
  | NegInfinity => true
  | PosInfinity | NaN => false
  end.

Definition Number_gt (n : JsNumber) (z : Z) : bool :=
  match n with
  | Finite q => negb (Qle_bool q (inject_Z z))
  | PosInfinity => true
  | NegInfinity | NaN => false
  end.

(** The integer an integral number denotes ([BigInt(n)]). *)
Definition Number_toZ (n : JsNumber) : Z :=
  match n with
  | Finite q => Qnum (Qred q)
  | _ => 0
  end.

(** A declared size that is a positive integer no greater than the
    maximum, as a property of the number. *)
Definition positive_integer_within_limit (n : JsNumber) : Prop :=
  exists z : Z,
    match n with
    | Finite q => (q == inject_Z z)%Q
    | _ => False
    end
    /\ 0 < z <= MAX_FILE_SIZE.

(** Property lookup in a parsed JSON object. *)
Definition get_prop (k : string) (kvs : list (string * Json)) : option Json :=
  match find (fun kv => String.eqb (fst kv) k) kvs with
  | Some kv => Some (snd kv)
  | None => None
  end.

(** The parsed request; [size] is the integer the validated number
    denotes. *)
Module UploadRequest.
Record t := mk {
  filename : string;
  contentType : string;
  size : Z;
  tags : option (list string);
  metadata : option (list (string * Json))
}.
End UploadRequest.

Inductive SafeParseReturnType :=
| SafeParseSuccess (data : UploadRequest.t)
| SafeParseError (errors : list ZodIssue.t).

Definition issue (c : ZodIssueCode) (p : list string) (m : option string)
  : ZodIssue.t := ZodIssue.mk c p m.

Definition issues_of {A} (r : list ZodIssue.t + A) : list ZodIssue.t :=
  match r with
  | inl errs => errs
  | inr _ => []
  end.

(** [z.string().min(1).max(255)] *)
Definition parse_filename (v : option Json) : list ZodIssue.t + string :=
  match v with
  | Some (JStr s) =>
      let errs :=
        ((if (String.length s <? 1)%nat
          then [issue too_small ["filename"] None] else [])
         ++ (if (255 <? String.length s)%nat
             then [issue too_big ["filename"] None] else []))%list in
      match errs with
      | [] => inr s
      | _ => inl errs
      end
  | _ => inl [issue invalid_type ["filename"] None]
  end.

(** [z.string().refine((type) => ALLOWED_MIME_TYPES.includes(type), ...)] *)
Definition parse_contentType (v : option Json) : list ZodIssue.t + string :=
  match v with
  | Some (JStr s) =>
      if includes ALLOWED_MIME_TYPES s then inr s
      else inl [issue custom ["contentType"]
                  (Some ("Content type must be one of: "
                        +:+ String.concat ", " ALLOWED_MIME_TYPES))]
  | _ => inl [issue invalid_type ["contentType"] None]
  end.

(** [z.number().int().positive().max(MAX_FILE_SIZE, ...)]: [z.number()]
    refuses what errs not a number, [NaN] included; the three checks then all
    run and each adds its issue. *)
Definition parse_size (v : option Json) : list ZodIssue.t + Z :=
  match v with
  | Some (JNum NaN) => inl [issue invalid_type ["size"] None]
  | Some (JNum n) =>
      let errs :=
        ((if Number_isInteger n then []
          else [issue invalid_type ["size"] None])
         ++ (if Number_le n 0
             then [issue too_small ["size"] None] else [])
         ++ (if Number_gt n MAX_FILE_SIZE
             then [issue too_big ["size"]
                     (Some "File size must not exceed 100MB")]
             else []))%list in
      match errs with
      | [] => inr (Number_toZ n)
      | _ => inl errs
      end
  | _ => inl [issue invalid_type ["size"] None]
  end.

(** One element of [tags]: [z.string().max(50)] *)
Definition parse_tag (v : Json) : list ZodIssue.t + string :=
  match v with
  | JStr s =>
      if (50 <? String.length s)%nat
      then inl [issue too_big ["tags"] None]
      else inr s
  | _ => inl [issue invalid_type ["tags"] None]
  end.

Fixpoint parse_tag_items (xs : list Json) : list ZodIssue.t * list string :=
  match xs with
  | [] => ([], [])
  | x :: rest =>
      let '(errs, ts) := parse_tag_items rest in
      match parse_tag x with
      | inl e => ((e ++ errs)%list, ts)
      | inr t => (errs, t :: ts)
      end
  end.

(** [z.array(z.string().max(50)).max(10).optional()] *)
Definition parse_tags (v : option Json)
  : list ZodIssue.t + option (list string) :=
  match v with
  | None => inr None
  | Some (JArr xs) =>
      let '(item_issues, ts) := parse_tag_items xs in
      let errs :=
        ((if (10 <? length xs)%nat
          then [issue too_big ["tags"] None] else [])
         ++ item_issues)%list in
      match errs with
      | [] => inr (Some ts)
      | _ => inl errs
      end
  | Some _ => inl [issue invalid_type ["tags"] None]
  end.

(** [z.record(z.unknown()).optional()] *)
Definition parse_metadata (v : option Json)
  : list ZodIssue.t + option (list (string * Json)) :=
  match v with
  | None => inr None
  | Some (JObj kvs) => inr (Some kvs)
  | Some _ => inl [issue invalid_type ["metadata"] None]
  end.

(** [uploadRequestSchema.safeParse] *)
Definition uploadRequestSchema_safeParse (body : Json)
  : SafeParseReturnType :=
  match body with
  | JObj kvs =>
      let rf := parse_filename (get_prop "filename" kvs) in
      let rc := parse_contentType (get_prop "contentType" kvs) in
      let rs := parse_size (get_prop "size" kvs) in
      let rt := parse_tags (get_prop "tags" kvs) in
      let rm := parse_metadata (get_prop "metadata" kvs) in
      match rf, rc, rs, rt, rm with
      | inr f, inr c, inr s, inr t, inr m =>
          SafeParseSuccess (UploadRequest.mk f c s t m)
      | _, _, _, _, _ =>
          SafeParseError
            (issues_of rf ++ issues_of rc ++ issues_of rs
               ++ issues_of rt ++ issues_of rm)%list
      end
  | _ => SafeParseError [issue invalid_type [] None]
  end.

(** ** auth.middleware.ts *)

Inductive MiddlewareResult :=
| Next
| Respond (res : Response.t).

Definition requirePermission (permission : string)
    (auth : option AuthContext.t) : MiddlewareResult :=
  match auth with
  | None =>
      Respond (Response.mk 401
                 (ErrorBody "AUTHENTICATION_ERROR" "Not authenticated."))
  | Some a =>
      if negb (includes (AuthContext.permissions a) permission)
         && negb (includes (AuthContext.permissions a) "admin")
      then
        Respond (Response.mk 403
                   (ErrorBody "AUTHORIZATION_ERROR"
                      ("Permission '" +:+ permission +:+ "' required.")))
      else Next
  end.

(** ** file.routes.ts *)

Definition NOT_FOUND_response : Response.t :=
  Response.mk 404 (ErrorBody "NOT_FOUND" "File not found").

(** [const { organizationId, apiKeyId } = req.auth!] *)
Definition req_auth (req : Request.t) : M AuthContext.t :=
  match Request.auth req with
  | Some a => ret a
  | None => throw TypeError
  end.

Definition metadata_json (m : option (list (string * Json))) : option Json :=
  match m with
  | Some kvs => Some (JObj kvs)
  | None => None
  end.

(** POST /api/v1/files/upload-url *)
Definition uploadUrl_handler (env : Env) (req : Request.t) : M Response.t :=
  match uploadRequestSchema_safeParse (Request.body req) with
  | SafeParseError errors =>
      ret (Response.mk 400
             (ErrorDetailsBody "VALIDATION_ERROR" "Invalid request body"
                errors))
  | SafeParseSuccess data =>
      let filename := UploadRequest.filename data in
      let contentType := UploadRequest.contentType data in
      let size := UploadRequest.size data in
      await a <- req_auth req ;;
      let organizationId := AuthContext.organizationId a in
      let apiKeyId := AuthContext.apiKeyId a in
      let fileId := nanoid env in
      let s3Key := organizationId +:+ "/" +:+ fileId +:+ "/" +:+ filename in
      await file <-
        createFileRecord env
          (CreateFileParams.mk organizationId (configured_bucket env) s3Key
             filename contentType size apiKeyId
             (UploadRequest.tags data)
             (metadata_json (UploadRequest.metadata data))) ;;
      await_ createAuditLog
        (AuditLog.mk (Some (File.id file)) organizationId
           AuditActions.UPLOAD_REQUESTED apiKeyId None None
           (Some (JObj [("filename", JStr filename);
                        ("contentType", JStr contentType);
                        ("size", JNum (Finite (inject_Z size)))]))
           (Request.correlationId req)) ;;
      await r <- generateUploadUrl env s3Key contentType size None ;;
      let '(uploadUrl, expiresAt) := r in
      ret (Response.mk 201
             (UploadUrlBody (File.id file) uploadUrl s3Key
                (toISOString env expiresAt)))
  end.

(** GET /api/v1/files/:id *)
Definition getFile_handler (env : Env) (req : Request.t) : M Response.t :=
  await a <- req_auth req ;;
  let organizationId := AuthContext.organizationId a in
  let apiKeyId := AuthContext.apiKeyId a in
  await found <- getFileById (Request.params_id req) organizationId ;;
  match found with
  | None => ret NOT_FOUND_response
  | Some file =>
      await_ createAuditLog
        (AuditLog.mk (Some (File.id file)) organizationId
           AuditActions.ACCESSED apiKeyId None None None
           (Request.correlationId req)) ;;
      ret (Response.mk 200 (DataBody (serializeFile file)))
  end.

(** GET /api/v1/files/:id/download-url *)
Definition downloadUrl_handler (env : Env) (req : Request.t)
  : M Response.t :=
  await a <- req_auth req ;;
  let organizationId := AuthContext.organizationId a in
  let apiKeyId := AuthContext.apiKeyId a in
  await found <- getFileById (Request.params_id req) organizationId ;;
  match found with
  | None => ret NOT_FOUND_response
  | Some file =>
      if negb (bool_decide (File.status file = PROCESSED))
         && negb (bool_decide (File.status file = UPLOADED))
      then
        ret (Response.mk 400
               (ErrorBody "INVALID_STATE"
                  ("File is not ready for download (status: "
                     +:+ FileStatus_to_string (File.status file) +:+ ")")))
      else
        await r <-
          generateDownloadUrl env (File.key file)
            (Some (File.originalName file)) ;;
        let '(downloadUrl, expiresAt) := r in
        await_ createAuditLog
          (AuditLog.mk (Some (File.id file)) organizationId
             AuditActions.DOWNLOAD_REQUESTED apiKeyId None None None
             (Request.correlationId req)) ;;
        ret (Response.mk 200
               (DownloadUrlBody downloadUrl (toISOString env expiresAt)
                  (File.originalName file)))
  end.

(** DELETE /api/v1/files/:id *)
Definition delete_handler (env : Env) (req : Request.t) : M Response.t :=
  await a <- req_auth req ;;
  let organizationId := AuthContext.organizationId a in
  let apiKeyId := AuthContext.apiKeyId a in
  await found <- getFileById (Request.params_id req) organizationId ;;
  match found with
  | None => ret NOT_FOUND_response
  | Some file =>
      await_ softDeleteFile (File.id file) organizationId apiKeyId
        (Request.correlationId req) ;;
      ret (Response.mk 204 EmptyBody)
  end.

Definition INVALID_STATE_confirm (s : FileStatus) : Response.t :=
  Response.mk 400
    (ErrorBody "INVALID_STATE"
       ("File is already in " +:+ FileStatus_to_string s +:+ " state")).

(** POST /api/v1/files/:id/confirm-upload *)
Definition confirmUpload_handler (env : Env) (req : Request.t)
  : M Response.t :=
  await a <- req_auth req ;;
  let organizationId := AuthContext.organizationId a in
  let apiKeyId := AuthContext.apiKeyId a in
  await found <- getFileById (Request.params_id req) organizationId ;;
  match found with
  | None => ret NOT_FOUND_response
  | Some file =>
      if negb (bool_decide (File.status file = PENDING_UPLOAD))
      then ret (INVALID_STATE_confirm (File.status file))
      else
        await updatedFile <- markFileUploaded (File.id file) organizationId ;;
        await_ createAuditLog
          (AuditLog.mk (Some (File.id file)) organizationId
             AuditActions.UPLOADED apiKeyId None None None
             (Request.correlationId req)) ;;
        await_ enqueueFileProcessing
          (FileJobData.mk (File.id file) organizationId (File.key file)
             (File.bucket file) (File.mimeType file)
             (Request.correlationId req)) ;;
        ret (Response.mk 200
               (DataMessageBody (serializeFile updatedFile)
                  "File upload confirmed. Processing queued."))
  end.

(** A route of [fileRoutes]: the permission middleware, then the handler
    under its [try]/[catch]. *)
Definition file_route (permission : string)
    (handler : Env -> Request.t -> M Response.t)
    (env : Env) (req : Request.t) (w : World) : Response.t * World :=
  match requirePermission permission (Request.auth req) with
  | Respond res => (res, w)
  | Next => route env (handler env req) w
  end.

Definition POST_upload_url := file_route "upload" uploadUrl_handler.
Definition GET_file := file_route "read" getFile_handler.
Definition GET_download_url := file_route "read" downloadUrl_handler.
Definition DELETE_file := file_route "delete" delete_handler.
Definition POST_confirm_upload := file_route "upload" confirmUpload_handler.

(** ** auth.service.ts *)

Definition hex_digit (n : N) : ascii :=
  match n with
  | 0%N => "0" | 1%N => "1" | 2%N => "2" | 3%N => "3"
  | 4%N => "4" | 5%N => "5" | 6%N => "6" | 7%N => "7"
  | 8%N => "8" | 9%N => "9" | 10%N => "a" | 11%N => "b"
  | 12%N => "c" | 13%N => "d" | 14%N => "e" | _ => "f"
  end%char.

(** [Buffer.prototype.toString('hex')] *)
Fixpoint toString_hex (bs : list Byte.byte) : string :=
  match bs with
  | [] => EmptyString
  | b :: rest =>
      String (hex_digit (Byte.to_N b / 16))
        (String (hex_digit (Byte.to_N b mod 16)) (toString_hex rest))
  end.

(** [crypto.randomBytes(n)] *)
Definition randomBytes (env : Env) (n : nat) : list Byte.byte :=
  map (entropy env) (seq 0 n).

Definition hashApiKey (env : Env) (key : string) : string :=
  sha256_hex env key.

Module GeneratedKey.
Record t := mk { key : string; prefix : string; hash : string }.
End GeneratedKey.

Definition generateApiKey (env : Env) : GeneratedKey.t :=
  let key := "cv_" +:+ toString_hex (randomBytes env 32) in
  let prefix := String.substring 0 11 key in
  let hash := hashApiKey env key in
  GeneratedKey.mk key prefix hash.

Definition set_apiKeys (ks : list ApiKey.t) (w : World) : World :=
  mkWorld (files w) (auditLogs w) (fileProcessingQueue w) (presigned w)
    ks (apiKeyQueries w).

Definition log_apiKeyQuery (q : ApiKeyQuery) (w : World) : World :=
  mkWorld (files w) (auditLogs w) (fileProcessingQueue w) (presigned w)
    (apiKeys w) (apiKeyQueries w ++ [q]).

(** [prisma.apiKey.findFirst({ where: { hashedKey: hash } })]; the joined
    organization row is left out. *)
Definition prisma_apiKey_findFirst (hash : string) : M (option ApiKey.t) :=
  fun w =>
    (Returned
       (find (fun k => String.eqb (ApiKey.hashedKey k) hash) (apiKeys w)),
     log_apiKeyQuery (FindFirstByHashedKey hash) w).

(** [prisma.apiKey.update(...).catch(() => {})]: the write is sent and its
    failure is dropped. *)
Definition touch_lastUsedAt (env : Env) (id : string) : M unit :=
  fun w =>
    let w' := log_apiKeyQuery (UpdateLastUsedAt id) w in
    if lastUsedWriteFails env then (Returned tt, w')
    else
      (Returned tt,
       set_apiKeys
         (map (fun k =>
                 if String.eqb (ApiKey.id k) id
                 then ApiKey.with_lastUsedAt (Some (now env)) k
                 else k)
              (apiKeys w'))
         w').

Definition is_expired (env : Env) (k : ApiKey.t) : bool :=
  match ApiKey.expiresAt k with
  | Some e => (e <? now env)%Z
  | None => false
  end.

Definition validateApiKey (env : Env) (key : string)
  : M (option ApiKey.t) :=
  if bool_decide (key = EmptyString) || negb (String.prefix "cv_" key)
  then ret None
  else
    let hash := hashApiKey env key in
    await apiKey <- prisma_apiKey_findFirst hash ;;
    match apiKey with
    | None => ret None
    | Some k =>
        if is_expired env k then ret None
        else
          await_ touch_lastUsedAt env (ApiKey.id k) ;;
          ret (Some k)
    end.

Module CreateApiKeyParams.
Record t := mk {
  organizationId : string;
  name : string;
  permissions : list string;
  expiresAt : option Z
}.
End CreateApiKeyParams.

Module CreatedApiKey.
Record t := mk {
  id : string;
  key : string;
  prefix : string;
  name : string;
  permissions : list string;
  expiresAt : option Z
}.
End CreatedApiKey.

Definition createApiKey (env : Env) (params : CreateApiKeyParams.t)
  : M CreatedApiKey.t :=
  let g := generateApiKey env in
  fun w =>
    let apiKey :=
      ApiKey.mk (newRowId env) (GeneratedKey.prefix g) (GeneratedKey.hash g)
        (CreateApiKeyParams.name params)
        (CreateApiKeyParams.organizationId params)
        (CreateApiKeyParams.permissions params)
        (CreateApiKeyParams.expiresAt params) None in
    let w' := log_apiKeyQuery (CreateApiKey (newRowId env)) w in
    if existsb (fun k => String.eqb (ApiKey.id k) (newRowId env)) (apiKeys w)
    then (Thrown UniqueConstraint, w')
    else
      (Returned
         (CreatedApiKey.mk (ApiKey.id apiKey) (GeneratedKey.key g)
            (ApiKey.keyPrefix apiKey) (ApiKey.name apiKey)
            (ApiKey.permissions apiKey) (ApiKey.expiresAt apiKey)),
       set_apiKeys (apiKeys w' ++ [apiKey]) w').

(** ** workers/file.worker.ts *)

Definition validateFile (data : FileJobData.t) : M Json :=
  ret (JObj [("valid", JBool true)]).

Definition generateChecksum (env : Env) (data : FileJobData.t) : M Json :=
  ret (JStr ("sha256-" +:+ NilZero.string_of_int (Z.to_hex_int (now env)))).

Definition extractMetadata (env : Env) (data : FileJobData.t) : M Json :=
  ret (JObj [("extractedAt", JStr (toISOString env (now env)));
             ("mimeType", JStr (FileJobData.mimeType data));
             ("processingVersion", JStr "1.0.0")]).

Definition processFileJob (env : Env) (job : Job.t) : M Json :=
  let data := Job.data job in
  let name := Job.name job in
  if String.eqb name FILE_JOBS.VALIDATE_FILE then validateFile data
  else if String.eqb name FILE_JOBS.GENERATE_CHECKSUM
  then generateChecksum env data
  else if String.eqb name FILE_JOBS.EXTRACT_METADATA
  then extractMetadata env data
  else if String.eqb name FILE_JOBS.GENERATE_THUMBNAIL
  then ret (JObj [("skipped", JBool true);
                  ("reason",
                   JStr "Not an image or thumbnail generation not implemented")])
  else throw (Error ("Unknown job type: " +:+ name)).

(** ** Interleaving of confirm-upload requests

    The confirm-upload handler gives control back to the event loop at each
    [await]; between two of them it runs alone.  [ConfirmPc] records the
    [await] a request is suspended at, with the handler's local variables;
    [confirm_step] runs the request up to its next [await].  Requests of
    several API instances interleave at the same points, the database and
    the queue being shared. *)

Inductive ConfirmPc :=
| AtGetFileById
| AtMarkFileUploaded (a : AuthContext.t) (file : File.t)
| AtCreateAuditLog (a : AuthContext.t) (file updatedFile : File.t)
| AtEnqueueFileProcessing (a : AuthContext.t) (file updatedFile : File.t)
| Responded (res : Response.t).

Definition confirm_step (env : Env) (req : Request.t) (pc : ConfirmPc)
    (w : World) : ConfirmPc * World :=
  match pc with
  | AtGetFileById =>
      match Request.auth req with
      | None => (Responded (errorHandler env TypeError), w)
      | Some a =>
          match getFileById (Request.params_id req)
                  (AuthContext.organizationId a) w with
          | (Returned None, w') => (Responded NOT_FOUND_response, w')
          | (Returned (Some file), w') =>
              if negb (bool_decide (File.status file = PENDING_UPLOAD))
              then (Responded (INVALID_STATE_confirm (File.status file)), w')
              else (AtMarkFileUploaded a file, w')
          | (Thrown e, w') => (Responded (errorHandler env e), w')
          end
      end
  | AtMarkFileUploaded a file =>
      match markFileUploaded (File.id file)
              (AuthContext.organizationId a) w with
      | (Returned updatedFile, w') => (AtCreateAuditLog a file updatedFile, w')
      | (Thrown e, w') => (Responded (errorHandler env e), w')
      end
  | AtCreateAuditLog a file updatedFile =>
      match createAuditLog
              (AuditLog.mk (Some (File.id file))
                 (AuthContext.organizationId a) AuditActions.UPLOADED
                 (AuthContext.apiKeyId a) None None None
                 (Request.correlationId req)) w with
      | (Returned _, w') => (AtEnqueueFileProcessing a file updatedFile, w')
      | (Thrown e, w') => (Responded (errorHandler env e), w')
      end
  | AtEnqueueFileProcessing a file updatedFile =>
      match enqueueFileProcessing
              (FileJobData.mk (File.id file) (AuthContext.organizationId a)
                 (File.key file) (File.bucket file) (File.mimeType file)
                 (Request.correlationId req)) w with
      | (Returned _, w') =>
          (Responded
             (Response.mk 200
                (DataMessageBody (serializeFile updatedFile)
                   "File upload confirmed. Processing queued.")), w')
      | (Thrown e, w') => (Responded (errorHandler env e), w')
      end
  | Responded res => (Responded res, w)
  end.

(** A request running alone for [n] resumptions. *)
Fixpoint confirm_run (n : nat) (env : Env) (req : Request.t)
    (pc : ConfirmPc) (w : World) : ConfirmPc * World :=
  match n with
  | O => (pc, w)
  | S n' =>
      let '(pc', w') := confirm_step env req pc w in
      confirm_run n' env req pc' w'
  end.

(** Two requests in flight: the schedule says which one is resumed. *)
Inductive Turn := FirstRequest | SecondRequest.

Record InFlight := mkInFlight {
  pc1 : ConfirmPc;
  pc2 : ConfirmPc;
  world : World
}.

Definition resume (env : Env) (req1 req2 : Request.t) (t : Turn)
    (s : InFlight) : InFlight :=
  match t with
  | FirstRequest =>
      let '(pc', w') := confirm_step env req1 (pc1 s) (world s) in
      mkInFlight pc' (pc2 s) w'
  | SecondRequest =>
      let '(pc', w') := confirm_step env req2 (pc2 s) (world s) in
      mkInFlight (pc1 s) pc' w'
  end.

Definition interleave (env : Env) (req1 req2 : Request.t)
    (schedule : list Turn) (w : World) : InFlight :=
  fold_left (fun s t => resume env req1 req2 t s) schedule
    (mkInFlight AtGetFileById AtGetFileById w).

Definition confirmed (pc : ConfirmPc) : bool :=
  match pc with
  | Responded res => bool_decide (Response.statusCode res = 200)
  | _ => false
  end.

Definition rejected (pc : ConfirmPc) : bool :=
  match pc with
  | Responded res => bool_decide (400 <= Response.statusCode res)
  | _ => false
  end.

(** Jobs of a given name waiting for a given file. *)
Definition jobs_for (name fileId : string) (q : list Job.t) : list Job.t :=
  List.filter
    (fun j => String.eqb (Job.name j) name
              && String.eqb (FileJobData.fileId (Job.data j)) fileId) q.

(** ** Events of the processing pipeline

    What can happen to the registry after the jobs are enqueued: the
    worker takes a job and [processFileJob] settles it, or
    [updateFileMetadata] is called for a file. *)

Inductive PipelineEvent :=
| JobProcessed (job : Job.t)
| MetadataUpdated (fileId : string) (metadata : Json)
    (checksum : option string).

Definition pipeline_step (env : Env) (ev : PipelineEvent) (w : World)
  : World :=
  match ev with
  | JobProcessed job => snd (processFileJob env job w)
  | MetadataUpdated fileId metadata checksum =>
      snd (updateFileMetadata fileId metadata checksum w)
  end.

Definition pipeline_run (env : Env) (evs : list PipelineEvent) (w : World)
  : World :=
  fold_left (fun w ev => pipeline_step env ev w) evs w.

(** The job [name] of file [fileId] has reported success in [evs]: the
    worker's processor returned for it. *)
Definition reported_success (env : Env) (name fileId : string)
    (evs : list PipelineEvent) (w : World) : bool :=
  existsb
    (fun ev =>
       match ev with
       | JobProcessed job =>
           String.eqb (Job.name job) name
           && String.eqb (FileJobData.fileId (Job.data job)) fileId
           && match fst (processFileJob env job w) with
              | Returned _ => true
              | Thrown _ => false
              end
       | MetadataUpdated _ _ _ => false
       end)
    evs.

Definition required_tasks : list string :=
  [FILE_JOBS.VALIDATE_FILE; FILE_JOBS.GENERATE_CHECKSUM;
   FILE_JOBS.EXTRACT_METADATA].

Definition all_required_succeeded (env : Env) (fileId : string)
    (evs : list PipelineEvent) (w : World) : bool :=
  forallb (fun name => reported_success env name fileId evs w)
    required_tasks.

Definition status_of (fileId : string) (w : World) : option FileStatus :=
  File.status <$> files w !! fileId.

(** ** Files a tenant cannot see *)

Inductive hidden_from (organizationId fileId : string) (w : World) : Prop :=
| hidden_other_tenant (f : File.t) :
    files w !! fileId = Some f ->
    File.organizationId f <> organizationId ->
    hidden_from organizationId fileId w
| hidden_absent :
    files w !! fileId = None ->
    hidden_from organizationId fileId w
| hidden_soft_deleted (f : File.t) :
    files w !! fileId = Some f ->
    File.status f = DELETED ->
    hidden_from organizationId fileId w.

(** The operations on one file, as the routes dispatch them. *)
Definition file_operations : list (Env -> Request.t -> M Response.t) :=
  [getFile_handler; downloadUrl_handler; delete_handler;
   confirmUpload_handler].

(** ** file.service.ts: listing *)

Module ListOptions.
Record t := mk {
  page : option Z;
  pageSize : option Z;
  status : option FileStatus
}.
End ListOptions.

Module Pagination.
Record t := mk {
  page : Z;
  pageSize : Z;
  totalItems : Z;
  totalPages : JsNumber
}.
End Pagination.

Module FileList.
Record t := mk {
  data : list SerializedFile.t;
  pagination : Pagination.t
}.
End FileList.

(** [skip] and [take] of [findMany] over the ordered rows: Prisma refuses
    a negative [skip]; a negative [take] counts from the end of the
    list. *)
Definition prisma_skip_take {A} (skip take : Z) (rows : list A)
  : Outcome (list A) :=
  if skip <? 0
  then Thrown (Error "Invalid value for skip argument")
  else if 0 <=? take
  then Returned (firstn (Z.to_nat take) (skipn (Z.to_nat skip) rows))
  else Returned
         (rev (firstn (Z.to_nat (- take))
                 (skipn (Z.to_nat skip) (rev rows)))).

(** [Math.ceil(a / b)] for integers [a] and [b] *)
Definition Math_ceil_quotient (a b : Z) : JsNumber :=
  if b =? 0
  then (if a =? 0 then NaN
        else if 0 <? a then PosInfinity else NegInfinity)
  else Finite (inject_Z (Qceiling (inject_Z a / inject_Z b))).

(** [where: { organizationId, status: options?.status ?? { not: DELETED } }] *)
Definition listFiles_where (organizationId : string)
    (status : option FileStatus) (f : File.t) : bool :=
  bool_decide (File.organizationId f = organizationId)
  && match status with
     | Some s => bool_decide (File.status f = s)
     | None => negb (bool_decide (File.status f = DELETED))
     end.

(** [orderBy: { createdAt: 'desc' }]; [createdAt] gives the creation
    instant the database recorded for a row id. *)
Definition newest_first (createdAt : string -> Z) (f g : File.t) : Prop :=
  createdAt (File.id g) <= createdAt (File.id f).

#[global] Instance newest_first_dec (createdAt : string -> Z) (f g : File.t)
  : Decision (newest_first createdAt f g).
Proof. unfold newest_first. apply _. Defined.

#[global] Instance newest_first_total (createdAt : string -> Z) :
  Total (newest_first createdAt).
Proof. intros f g. unfold newest_first. lia. Qed.

#[global] Instance newest_first_trans (createdAt : string -> Z) :
  Transitive (newest_first createdAt).
Proof. intros f g h. unfold newest_first. lia. Qed.

Definition table_rows (w : World) : list File.t :=
  map snd (map_to_list (files w)).

Definition matching_rows (createdAt : string -> Z) (organizationId : string)
    (status : option FileStatus) (w : World) : list File.t :=
  merge_sort (newest_first createdAt)
    (List.filter (listFiles_where organizationId status) (table_rows w)).

Definition listFiles (createdAt : string -> Z) (organizationId : string)
    (options : option ListOptions.t) : M FileList.t :=
  fun w =>
    let page :=
      match options with
      | Some o => match ListOptions.page o with Some p => p | None => 1 end
      | None => 1
      end in
    let pageSize :=
      Z.min (match options with
             | Some o =>
                 match ListOptions.pageSize o with Some s => s | None => 20 end
             | None => 20
             end) 100 in
    let skip := (page - 1) * pageSize in
    let status :=
      match options with
      | Some o => ListOptions.status o
      | None => None
      end in
    let rows := matching_rows createdAt organizationId status w in
    let total := Z.of_nat (length rows) in
    match prisma_skip_take skip pageSize rows with
    | Thrown e => (Thrown e, w)
    | Returned files =>
        (Returned
           (FileList.mk (map serializeFile files)
              (Pagination.mk page pageSize total
                 (Math_ceil_quotient total pageSize))),
         w)
    end.

(** ** file.validators.ts: the list query *)

(** A value of [req.query]: a string, a repeated parameter or a nested
    object. *)
Inductive QueryValue :=
| QueryString (s : string)
| QueryArray (xs : list string)
| QueryObject.

Module ListQuery.
Record t := mk {
  page : option QueryValue;
  pageSize : option QueryValue;
  status : option QueryValue
}.
End ListQuery.

Inductive QueryIssueCode :=
| query_invalid_type
| query_too_small
| query_too_big
| query_invalid_enum_value.

Module QueryIssue.
Record t := mk { code : QueryIssueCode; path : list string }.
End QueryIssue.

(** [Number(value)], the conversion of a string being [ToNumber]: an array
    is first joined with commas, an object reads [[object Object]]. *)
Definition coerce_number (ToNumber : string -> JsNumber) (v : QueryValue)
  : JsNumber :=
  match v with
  | QueryString s => ToNumber s
  | QueryArray xs => ToNumber (String.concat "," xs)
  | QueryObject => ToNumber "[object Object]"
  end.

(** [z.coerce.number().int().positive()], with [.max(limit)] when a limit
    is given and [.default(d)] for an absent parameter. *)
Definition parse_query_number (ToNumber : string -> JsNumber)
    (name : string) (limit : option Z) (d : Z) (v : option QueryValue)
  : list QueryIssue.t + Z :=
  match v with
  | None => inr d
  | Some q =>
      match coerce_number ToNumber q with
      | NaN => inl [QueryIssue.mk query_invalid_type [name]]
      | n =>
          let errs :=
            (if Number_isInteger n then []
             else [QueryIssue.mk query_invalid_type [name]])
            ++ (if Number_le n 0
                then [QueryIssue.mk query_too_small [name]] else [])
            ++ match limit with
               | Some m =>
                   if Number_gt n m
                   then [QueryIssue.mk query_too_big [name]] else []
               | None => []
               end in
          match errs with
          | [] => inr (Number_toZ n)
          | _ => inl errs
          end
      end
  end.

Definition listable_status (s : string) : option FileStatus :=
  if String.eqb s "PENDING_UPLOAD" then Some PENDING_UPLOAD
  else if String.eqb s "UPLOADED" then Some UPLOADED
  else if String.eqb s "PROCESSING" then Some PROCESSING
  else if String.eqb s "PROCESSED" then Some PROCESSED
  else if String.eqb s "FAILED" then Some FAILED
  else None.

(** [z.enum([...]).optional()] *)
Definition parse_query_status (v : option QueryValue)
  : list QueryIssue.t + option FileStatus :=
  match v with
  | None => inr None
  | Some (QueryString s) =>
      match listable_status s with
      | Some st => inr (Some st)
      | None => inl [QueryIssue.mk query_invalid_enum_value ["status"]]
      end
  | Some _ => inl [QueryIssue.mk query_invalid_type ["status"]]
  end.

Definition query_issues_of {A} (r : list QueryIssue.t + A)
  : list QueryIssue.t :=
  match r with
  | inl errs => errs
  | inr _ => []
  end.

(** [listFilesQuerySchema.safeParse] *)
Definition listFilesQuerySchema_safeParse (ToNumber : string -> JsNumber)
    (query : ListQuery.t) : list QueryIssue.t + ListOptions.t :=
  let rp :=
    parse_query_number ToNumber "page" None 1 (ListQuery.page query) in
  let rs :=
    parse_query_number ToNumber "pageSize" (Some 100) 20
      (ListQuery.pageSize query) in
  let rst := parse_query_status (ListQuery.status query) in
  match rp, rs, rst with
  | inr p, inr s, inr st => inr (ListOptions.mk (Some p) (Some s) st)
  | _, _, _ =>
      inl (query_issues_of rp ++ query_issues_of rs ++ query_issues_of rst)
  end.

(** ** file.routes.ts: GET /api/v1/files *)

Inductive ListReply :=
| ListInvalid (statusCode : Z) (code message : string)
    (details : list QueryIssue.t)
| ListAnswer (statusCode : Z) (result : FileList.t)
| ListOther (res : Response.t).

Definition listFiles_handler (ToNumber : string -> JsNumber)
    (createdAt : string -> Z) (env : Env) (auth : option AuthContext.t)
    (query : ListQuery.t) (w : World) : ListReply * World :=
  match listFilesQuerySchema_safeParse ToNumber query with
  | inl errors =>
      (ListInvalid 400 "VALIDATION_ERROR" "Invalid query parameters" errors,
       w)
  | inr data =>
      match auth with
      | None => (ListOther (errorHandler env TypeError), w)
      | Some a =>
          match listFiles createdAt (AuthContext.organizationId a)
                  (Some data) w with
          | (Returned result, w') => (ListAnswer 200 result, w')
          | (Thrown e, w') => (ListOther (errorHandler env e), w')
          end
      end
  end.

Definition GET_files (ToNumber : string -> JsNumber)
    (createdAt : string -> Z) (env : Env) (auth : option AuthContext.t)
    (query : ListQuery.t) (w : World) : ListReply * World :=
  match requirePermission "read" auth with
  | Respond res => (ListOther res, w)
  | Next => listFiles_handler ToNumber createdAt env auth query w
  end.

(** ** audit.service.ts: queries

    The audit log is kept in the order its entries were written, which is
    the order of their [createdAt]. *)


Module AuditQueryOptions.
Record t := mk { limit : option Z; action : option string }.
End AuditQueryOptions.


(** ** auth.middleware.ts: authentication *)

Inductive AuthOutcome :=
| Authenticated (auth : AuthContext.t)
| Unauthenticated (res : Response.t).

(** [authMiddleware] on the value of the [X-API-Key] header;
    [organizationName] reads the name of the organization row joined to the
    key. *)
Definition authMiddleware (organizationName : string -> string) (env : Env)
    (x_api_key : option string) (w : World) : AuthOutcome * World :=
  let required :=
    Unauthenticated
      (Response.mk 401
         (ErrorBody "AUTHENTICATION_ERROR"
            "API key required. Provide X-API-Key header.")) in
  match x_api_key with
  | None => (required, w)
  | Some apiKey =>
      if bool_decide (apiKey = EmptyString) then (required, w)
      else
        match validateApiKey env apiKey w with
        | (Returned None, w') =>
            (Unauthenticated
               (Response.mk 401
                  (ErrorBody "AUTHENTICATION_ERROR"
                     "Invalid or expired API key.")), w')
        | (Returned (Some validatedKey), w') =>
            (Authenticated
               (AuthContext.mk (ApiKey.organizationId validatedKey)
                  (ApiKey.id validatedKey)
                  (ApiKey.permissions validatedKey)
                  (organizationName (ApiKey.organizationId validatedKey))),
             w')
        | (Thrown _, w') =>
            (Unauthenticated
               (Response.mk 500
                  (ErrorBody "INTERNAL_ERROR" "Authentication failed.")), w')
        end
  end.

Definition with_auth (a : AuthContext.t) (req : Request.t) : Request.t :=
  Request.mk (Some a) (Request.params_id req) (Request.correlationId req)
    (Request.body req).

(** A file route as mounted: [fileRoutes.use(authMiddleware)], then the
    permission middleware and the handler. *)
Definition files_endpoint (organizationName : string -> string)
    (permission : string) (handler : Env -> Request.t -> M Response.t)
    (env : Env) (x_api_key : option string) (req : Request.t) (w : World)
  : Response.t * World :=
  match authMiddleware organizationName env x_api_key w with
  | (Unauthenticated res, w') => (res, w')
  | (Authenticated a, w') =>
      file_route permission handler env (with_auth a req) w'
  end.

(** ** admin.routes.ts: API keys *)

Module ApiKeySummary.
Record t := mk {
  id : string;
  keyPrefix : string;
  name : string;
  permissions : list string;
  expiresAt : option Z;
  lastUsedAt : option Z
}.
End ApiKeySummary.

Inductive AdminReply :=
| AdminPlain (res : Response.t)
| ApiKeyCreated (statusCode : Z) (apiKey : CreatedApiKey.t)
    (warning : string)
| ApiKeyList (statusCode : Z) (data : list ApiKeySummary.t).

(** JavaScript truthiness of a JSON value *)
Definition truthy (v : Json) : bool :=
  match v with
  | JNull => false
  | JBool b => b
  | JNum (Finite q) => negb (Qeq_bool q 0)
  | JNum NaN => false
  | JNum _ => true
  | JStr s => negb (bool_decide (s = EmptyString))
  | JArr _ | JObj _ => true
  end.

Definition validPermissions : list string :=
  ["upload"; "read"; "delete"; "admin"].

(** [permissions.filter(p => validPermissions.includes(p))] *)
Fixpoint filter_valid_permissions (ps : list Json) : list string :=
  match ps with
  | [] => []
  | JStr s :: rest =>
      if includes validPermissions s
      then s :: filter_valid_permissions rest
      else filter_valid_permissions rest
  | _ :: rest => filter_valid_permissions rest
  end.

(** A property of [req.body] read by destructuring. *)
Definition body_prop (k : string) (body : Json) : option Json :=
  match body with
  | JObj kvs => get_prop k kvs
  | _ => None
  end.

Definition admin_route (env : Env) (m : M AdminReply) (w : World)
  : AdminReply * World :=
  match m w with
  | (Returned reply, w') => (reply, w')
  | (Thrown err, w') => (AdminPlain (errorHandler env err), w')
  end.

(** POST /api/v1/admin/api-keys; [newDate] is [new Date(value)], [None]
    standing for an invalid date, which Prisma refuses. *)
Definition createApiKey_handler (newDate : Json -> option Z) (env : Env)
    (auth : option AuthContext.t) (body : Json) : M AdminReply :=
  match body with
  | JNull => throw TypeError
  | _ =>
      let name := body_prop "name" body in
      let permissions := body_prop "permissions" body in
      let expiresAt := body_prop "expiresAt" body in
      match name with
      | Some (JStr n) =>
          if bool_decide (n = EmptyString)
          then ret (AdminPlain
                      (Response.mk 400
                         (ErrorBody "VALIDATION_ERROR"
                            "API key name is required")))
          else
            let perms :=
              match permissions with
              | Some (JArr ps) => filter_valid_permissions ps
              | _ => ["read"]
              end in
            match auth with
            | None => throw TypeError
            | Some a =>
                await expires <-
                  match expiresAt with
                  | Some v =>
                      if truthy v
                      then match newDate v with
                           | Some t => ret (Some t)
                           | None =>
                               throw (Error "Provided Date object is invalid")
                           end
                      else ret None
                  | None => ret None
                  end ;;
                await apiKey <-
                  createApiKey env
                    (CreateApiKeyParams.mk (AuthContext.organizationId a) n
                       perms expires) ;;
                ret (ApiKeyCreated 201 apiKey
                       "Save this API key now! It will not be shown again.")
            end
      | _ =>
          ret (AdminPlain
                 (Response.mk 400
                    (ErrorBody "VALIDATION_ERROR"
                       "API key name is required")))
      end
  end.

Definition summary_of (k : ApiKey.t) : ApiKeySummary.t :=
  ApiKeySummary.mk (ApiKey.id k) (ApiKey.keyPrefix k) (ApiKey.name k)
    (ApiKey.permissions k) (ApiKey.expiresAt k) (ApiKey.lastUsedAt k).

(** GET /api/v1/admin/api-keys; the keys are stored in the order they were
    created. *)
Definition listApiKeys_handler (env : Env) (auth : option AuthContext.t)
  : M AdminReply :=
  match auth with
  | None => throw TypeError
  | Some a =>
      fun w =>
        (Returned
           (ApiKeyList 200
              (map summary_of
                 (rev (List.filter
                         (fun k =>
                            bool_decide
                              (ApiKey.organizationId k
                               = AuthContext.organizationId a))
                         (apiKeys w))))),
         w)
  end.

(** DELETE /api/v1/admin/api-keys/:id *)
Definition revokeApiKey_handler (env : Env) (auth : option AuthContext.t)
    (id : string) : M AdminReply :=
  match auth with
  | None => throw TypeError
  | Some a =>
      if bool_decide (id = AuthContext.apiKeyId a)
      then ret (AdminPlain
                  (Response.mk 400
                     (ErrorBody "INVALID_OPERATION"
                        "Cannot delete the API key currently in use")))
      else
        fun w =>
          match find (fun k =>
                        bool_decide (ApiKey.id k = id)
                        && bool_decide
                             (ApiKey.organizationId k
                              = AuthContext.organizationId a))
                  (apiKeys w) with
          | None =>
              (Returned
                 (AdminPlain
                    (Response.mk 404
                       (ErrorBody "NOT_FOUND" "API key not found"))), w)
          | Some _ =>
              (Returned (AdminPlain (Response.mk 204 EmptyBody)),
               set_apiKeys
                 (List.filter
                    (fun k => negb (bool_decide (ApiKey.id k = id)))
                    (apiKeys w))
                 w)
          end
  end.

(** An admin route as mounted: [authMiddleware],
    [requirePermission('admin')], then the handler under its [try]. *)
Definition admin_endpoint (organizationName : string -> string) (env : Env)
    (x_api_key : option string)
    (handler : option AuthContext.t -> M AdminReply) (w : World)
  : AdminReply * World :=
  match authMiddleware organizationName env x_api_key w with
  | (Unauthenticated res, w') => (AdminPlain res, w')
  | (Authenticated a, w') =>
      match requirePermission "admin" (Some a) with
      | Respond res => (AdminPlain res, w')
      | Next => admin_route env (handler (Some a)) w'
      end
  end.

(** ** shared/errors.ts *)

Module CloudVaultError.
Record t := mk {
  message : string;
  code : string;
  statusCode : Z;
  details : option Json
}.
End CloudVaultError.

Definition ValidationError (message : string) (details : option Json)
  : CloudVaultError.t :=
  CloudVaultError.mk message "VALIDATION_ERROR" 400 details.

Definition AuthenticationError (message : option string)
  : CloudVaultError.t :=
  CloudVaultError.mk
    (match message with Some m => m | None => "Authentication required" end)
    "AUTHENTICATION_ERROR" 401 None.

Definition AuthorizationError (message : option string)
  : CloudVaultError.t :=
  CloudVaultError.mk
    (match message with Some m => m | None => "Insufficient permissions" end)
    "AUTHORIZATION_ERROR" 403 None.

(** [id ? `${resource} '${id}' not found` : `${resource} not found`] *)
Definition NotFoundError (resource : string) (id : option string)
  : CloudVaultError.t :=
  CloudVaultError.mk
    (match id with
     | Some i =>
         if bool_decide (i = EmptyString) then resource +:+ " not found"
         else resource +:+ " '" +:+ i +:+ "' not found"
     | None => resource +:+ " not found"
     end)
    "NOT_FOUND" 404 None.

Definition ConflictError (message : string) : CloudVaultError.t :=
  CloudVaultError.mk message "CONFLICT" 409 None.

(** The error classes, each at some arguments. *)
Inductive error_class : CloudVaultError.t -> Prop :=
| class_ValidationError m d : error_class (ValidationError m d)
| class_AuthenticationError m : error_class (AuthenticationError m)
| class_AuthorizationError m : error_class (AuthorizationError m)
| class_NotFoundError r i : error_class (NotFoundError r i)
| class_ConflictError m : error_class (ConflictError m).

(** The machine-readable code of an error answer. *)
Definition error_code (res : Response.t) : option string :=
  match Response.json res with
  | ErrorBody code _ => Some code
  | ErrorDetailsBody code _ _ => Some code
  | _ => None
  end.

(** The routes of file.routes.ts that address or create one file. *)
Definition file_routes
  : list (Env -> Request.t -> World -> Response.t * World) :=
  [POST_upload_url; GET_file; GET_download_url; DELETE_file;
   POST_confirm_upload].

(** ** What one file route does to the world

    [route_effect env req w res w'] lists the ways a route of [file_routes]
    can answer [res] and turn the world [w] into [w']. *)

(** The row [f] is one the context [a] may address. *)
Definition visible_to (a : AuthContext.t) (w : World) (f : File.t) : Prop :=
  files w !! File.id f = Some f
  /\ File.organizationId f = AuthContext.organizationId a
  /\ File.status f <> DELETED.

(** The audit entry [e] records [action] on file [fileId] for the caller
    of [req]. *)
Definition attributed (a : AuthContext.t) (req : Request.t)
    (action fileId : string) (e : AuditLog.t) : Prop :=
  AuditLog.fileId e = Some fileId
  /\ AuditLog.organizationId e = AuthContext.organizationId a
  /\ AuditLog.action e = action
  /\ AuditLog.actor e = AuthContext.apiKeyId a
  /\ AuditLog.correlationId e = Request.correlationId req.

Inductive route_effect (env : Env) (req : Request.t) (w : World)
  : Response.t -> World -> Prop :=
| effect_refused (res : Response.t) :
    400 <= Response.statusCode res ->
    route_effect env req w res w
| effect_created (a : AuthContext.t) (f : File.t) (e : AuditLog.t)
    (url : string) :
    Request.auth req = Some a ->
    files w !! File.id f = None ->
    File.id f = newRowId env ->
    File.organizationId f = AuthContext.organizationId a ->
    File.status f = PENDING_UPLOAD ->
    File.uploadedBy f = Some (AuthContext.apiKeyId a) ->
    String.prefix (AuthContext.organizationId a +:+ "/") (File.key f)
      = true ->
    attributed a req AuditActions.UPLOAD_REQUESTED (File.id f) e ->
    route_effect env req w
      (Response.mk 201
         (UploadUrlBody (File.id f) url (File.key f)
            (toISOString env (now env + uploadExpiry env * 1000))))
      (mkWorld (<[File.id f := f]> (files w)) (auditLogs w ++ [e])
         (fileProcessingQueue w)
         (presigned w
            ++ [PutObjectCommand (configured_bucket env) (File.key f)
                  (File.mimeType f) (File.size f) None])
         (apiKeys w) (apiKeyQueries w))
| effect_accessed (a : AuthContext.t) (f : File.t) (e : AuditLog.t) :
    Request.auth req = Some a ->
    File.id f = Request.params_id req ->
    visible_to a w f ->
    attributed a req AuditActions.ACCESSED (File.id f) e ->
    route_effect env req w
      (Response.mk 200 (DataBody (serializeFile f)))
      (mkWorld (files w) (auditLogs w ++ [e]) (fileProcessingQueue w)
         (presigned w) (apiKeys w) (apiKeyQueries w))
| effect_download (a : AuthContext.t) (f : File.t) (e : AuditLog.t)
    (url : string) (disposition : option string) :
    Request.auth req = Some a ->
    File.id f = Request.params_id req ->
    visible_to a w f ->
    File.status f = UPLOADED \/ File.status f = PROCESSED ->
    attributed a req AuditActions.DOWNLOAD_REQUESTED (File.id f) e ->
    route_effect env req w
      (Response.mk 200
         (DownloadUrlBody url
            (toISOString env (now env + downloadExpiry env * 1000))
            (File.originalName f)))
      (mkWorld (files w) (auditLogs w ++ [e]) (fileProcessingQueue w)
         (presigned w
            ++ [GetObjectCommand (configured_bucket env) (File.key f)
                  disposition])
         (apiKeys w) (apiKeyQueries w))
| effect_deleted (a : AuthContext.t) (f : File.t) (e : AuditLog.t) :
    Request.auth req = Some a ->
    File.id f = Request.params_id req ->
    visible_to a w f ->
    attributed a req AuditActions.DELETED (File.id f) e ->
    route_effect env req w
      (Response.mk 204 EmptyBody)
      (mkWorld (<[File.id f := File.with_status DELETED f]> (files w))
         (auditLogs w ++ [e]) (fileProcessingQueue w) (presigned w)
         (apiKeys w) (apiKeyQueries w))
| effect_confirmed (a : AuthContext.t) (f : File.t) (e : AuditLog.t)
    (jobs : list Job.t) :
    Request.auth req = Some a ->
    File.id f = Request.params_id req ->
    visible_to a w f ->
    File.status f = PENDING_UPLOAD ->
    attributed a req AuditActions.UPLOADED (File.id f) e ->
    Forall (fun j => FileJobData.fileId (Job.data j) = File.id f
                     /\ FileJobData.organizationId (Job.data j)
                        = AuthContext.organizationId a
                     /\ FileJobData.key (Job.data j) = File.key f) jobs ->
    route_effect env req w
      (Response.mk 200
         (DataMessageBody (serializeFile (File.with_status UPLOADED f))
            "File upload confirmed. Processing queued."))
      (mkWorld (<[File.id f := File.with_status UPLOADED f]> (files w))
         (auditLogs w ++ [e]) (fileProcessingQueue w ++ jobs) (presigned w)
         (apiKeys w) (apiKeyQueries w)).

(** The handlers of file.routes.ts that address or create one file. *)
Definition file_handlers : list (Env -> Request.t -> M Response.t) :=
  [uploadUrl_handler; getFile_handler; downloadUrl_handler; delete_handler;
   confirmUpload_handler].

(** The codes and statuses of the answers: an error body carries one of
    six codes with its status, any other body a status below 300. *)
Definition coded_answer (res : Response.t) : Prop :=
  match error_code res with
  | Some code =>
      In (code, Response.statusCode res)
        [("VALIDATION_ERROR", 400); ("INVALID_STATE", 400);
         ("AUTHENTICATION_ERROR", 401); ("AUTHORIZATION_ERROR", 403);
         ("NOT_FOUND", 404); ("INTERNAL_ERROR", 500)]
  | None => In (Response.statusCode res) [200; 201; 204]
  end.

(** A stored key with its [lastUsedAt] column blanked. *)
Definition without_lastUsedAt (k : ApiKey.t) : ApiKey.t :=
  ApiKey.with_lastUsedAt None k.

(** The value of a hexadecimal digit, and the byte two digits spell. *)
Definition hex_value (c : ascii) : option N :=
  let code := N_of_ascii c in
  if ((48 <=? code) && (code <=? 57))%N then Some (code - 48)%N
  else if ((97 <=? code) && (code <=? 102))%N then Some (code - 87)%N
  else None.

Definition byte_of_hex (hi lo : ascii) : option Byte.byte :=
  match hex_value hi, hex_value lo with
  | Some h, Some l => Byte.of_N (16 * h + l)
  | _, _ => None
  end.

(** Whether a confirmation has been answered 200, as a count. *)
Definition answered_200 (pc : ConfirmPc) : nat :=
  if confirmed pc then 1 else 0.

(** The file a suspended confirmation of [req] holds is the one [req]
    names. *)
Definition suspended_on (req : Request.t) (pc : ConfirmPc) : Prop :=
  match pc with
  | AtGetFileById | Responded _ => True
  | AtMarkFileUploaded _ f
  | AtCreateAuditLog _ f _
  | AtEnqueueFileProcessing _ f _ => File.id f = Request.params_id req
  end.

(** The same call when the write of [lastUsedAt] is lost ([lost = true])
    or goes through. *)
Definition with_lastUsedWrite (lost : bool) (env : Env) : Env :=
  mkEnv (now env) (nanoid env) (newRowId env) (getSignedUrl env)
    (S3_BUCKET env) (uploadExpiry env) (downloadExpiry env)
    (development env) (sha256_hex env) (toISOString env) (entropy env)
    lost.

(** ** Sample data *)

Module Sample.

Definition digest (s : string) : string := "sha256(" +:+ s +:+ ")".

Definition env : Env :=
  mkEnv 1700000000000 "V1StGXR8" "row-2"
    (fun _ _ => "https://s3.example/signed") None 3600 3600 false
    digest (fun _ => "2023-11-14T22:13:20.000Z") (fun _ => Byte.x2a) false.

Definition report : File.t :=
  File.mk "file-1" "org-A" "cloudvault-files" "org-A/n1/report.pdf"
    "report.pdf" "application/pdf" 1200 None PENDING_UPLOAD None None []
    (Some "key-1").

Definition with_report (s : FileStatus) : World :=
  mkWorld {[ "file-1" := File.with_status s report ]} [] [] [] [] [].

Definition acme : AuthContext.t :=
  AuthContext.mk "org-A" "key-1" ["upload"; "read"; "delete"] "Acme".

Definition acme_second_key : AuthContext.t :=
  AuthContext.mk "org-A" "key-2" ["upload"] "Acme".

Definition globex : AuthContext.t :=
  AuthContext.mk "org-B" "key-9" ["upload"; "read"; "delete"; "admin"]
    "Globex".

Definition request (a : AuthContext.t) (corr : string) : Request.t :=
  Request.mk (Some a) "file-1" (Some corr) JNull.

Definition upload_body (contentType : string) (size : JsNumber) : Json :=
  JObj [("filename", JStr "report.pdf");
        ("contentType", JStr contentType);
        ("size", JNum size)].

Definition upload_request (contentType : string) (size : JsNumber)
  : Request.t :=
  Request.mk (Some acme) EmptyString (Some "c-1")
    (upload_body contentType size).

Definition stored_key : ApiKey.t :=
  ApiKey.mk "key-1" "cv_0123abcd" (digest "cv_0123abcd-secret") "ci"
    "org-A" ["upload"] (Some 1600000000000) None.

Definition lasting_key : ApiKey.t :=
  ApiKey.mk "key-2" "cv_89abcdef" (digest "cv_89abcdef-secret") "ops"
    "org-A" ["upload"; "read"] None None.

Definition key_params : CreateApiKeyParams.t :=
  CreateApiKeyParams.mk "org-B" "Default Admin Key"
    ["upload"; "read"; "delete"; "admin"] None.

Definition with_key (k : ApiKey.t) : World :=
  mkWorld ∅ [] [] [] [k] [].

Definition job (name : string) : Job.t :=
  Job.mk name
    (FileJobData.mk "file-1" "org-A" "org-A/n1/report.pdf"
       "cloudvault-files" "application/pdf" None)
    (JobsOptions.merge defaultJobOptions (priority_only 1)).

Definition invoice : File.t :=
  File.mk "file-2" "org-A" "cloudvault-files" "org-A/n2/invoice.csv"
    "invoice.csv" "text/csv" 300 (Some "sha256-18bd") PROCESSED None None
    ["2024"] (Some "key-1").

Definition photo : File.t :=
  File.mk "file-3" "org-A" "cloudvault-files" "org-A/n3/photo.png"
    "photo.png" "image/png" 52000 None DELETED None None [] (Some "key-2").

Definition contract : File.t :=
  File.mk "file-9" "org-B" "cloudvault-files" "org-B/n9/contract.pdf"
    "contract.pdf" "application/pdf" 8100 None UPLOADED None None []
    (Some "key-9").

Definition library : World :=
  mkWorld
    (<["file-1" := File.with_status UPLOADED report]>
       (<["file-2" := invoice]>
          (<["file-3" := photo]> {[ "file-9" := contract ]})))
    [] [] [] [stored_key; lasting_key] [].

Definition createdAt (id : string) : Z :=
  if String.eqb id "file-1" then 1000
  else if String.eqb id "file-2" then 2000
  else if String.eqb id "file-3" then 3000
  else 500.

(** [Number] on the few strings the samples use. *)
Definition ToNumber (s : string) : JsNumber :=
  if String.eqb s "1" then Finite 1
  else if String.eqb s "2" then Finite 2
  else if String.eqb s "500" then Finite 500
  else if String.eqb s "1.5" then Finite (3 # 2)
  else NaN.

End Sample.

(** * Properties *)

(** Resume a suspended confirmation by one [await]. *)
Ltac resume_step :=
  cbn [confirm_run confirm_step createAuditLog ret fst snd].

(** ** The handler monad *)

Lemma getFileById_world fileId organizationId w :
  snd (getFileById fileId organizationId w) = w.
Proof.
  unfold getFileById.
  destruct (files w !! fileId) as [f|]; [|reflexivity].
  destruct (_ && _); reflexivity.
Qed.

Lemma getFileById_Some fileId organizationId w f :
  getFileById fileId organizationId w = (Returned (Some f), w) <->
  files w !! fileId = Some f /\ File.id f = fileId
  /\ File.organizationId f = organizationId /\ File.status f <> DELETED.
Proof.
  unfold getFileById. split.
  - destruct (files w !! fileId) as [g|] eqn:Hg; [|discriminate].
    destruct (bool_decide (File.id g = fileId)) eqn:H1;
      destruct (bool_decide (File.organizationId g = organizationId)) eqn:H2;
      destruct (bool_decide (File.status g = DELETED)) eqn:H3;
      simpl; intros H; inversion H; subst.
    apply bool_decide_eq_true in H1, H2.
    apply bool_decide_eq_false in H3. auto.
  - intros (Hg & H1 & H2 & H3). rewrite Hg.
    rewrite !bool_decide_true by assumption.
    rewrite bool_decide_false by assumption. reflexivity.
Qed.

Lemma getFileById_hidden fileId organizationId w :
  hidden_from organizationId fileId w ->
  getFileById fileId organizationId w = (Returned None, w).
Proof.
  unfold getFileById.
  intros [f Hf Horg | Hnone | f Hf Hdel]; rewrite ?Hf, ?Hnone; auto.
  - rewrite (bool_decide_false (File.organizationId f = organizationId))
      by assumption.
    rewrite andb_false_r. reflexivity.
  - rewrite (bool_decide_true (File.status f = DELETED)) by assumption.
    rewrite andb_false_r. reflexivity.
Qed.

Lemma file_route_granted
    (permission : string) (handler : Env -> Request.t -> M Response.t)
    (env : Env) (req : Request.t) (w : World) :
  requirePermission permission (Request.auth req) = Next ->
  file_route permission handler env req w = route env (handler env req) w.
Proof. intros Hnext. unfold file_route. rewrite Hnext. reflexivity. Qed.

(** A request without the permission is answered before any file is looked
    up: the answer does not depend on the world. *)
Lemma file_route_denied
    (permission : string) (handler : Env -> Request.t -> M Response.t)
    (env : Env) (req : Request.t) (w1 w2 : World) (res : Response.t) :
  requirePermission permission (Request.auth req) = Respond res ->
  file_route permission handler env req w1 = (res, w1)
  /\ fst (file_route permission handler env req w2) = res.
Proof. intros Hres. unfold file_route. rewrite Hres. auto. Qed.

(** ** Download eligibility *)

(** C3. For every file the request resolves to, the download-url handler
    answers 200 with a signed URL iff the file's status is UPLOADED or
    PROCESSED; for any other status it answers INVALID_STATE and leaves the
    world as it was, so that no command reaches the pre-signer. *)
Theorem download_url_iff_uploaded_or_processed
    (env : Env) (req : Request.t) (a : AuthContext.t) (w : World)
    (file : File.t) :
  Request.auth req = Some a ->
  getFileById (Request.params_id req) (AuthContext.organizationId a) w
    = (Returned (Some file), w) ->
  let ready :=
    File.status file = UPLOADED \/ File.status file = PROCESSED in
  let res := fst (route env (downloadUrl_handler env req) w) in
  let w' := snd (route env (downloadUrl_handler env req) w) in
  (Response.statusCode res = 200 <-> ready)
  /\ (ready ->
      exists command,
        res = Response.mk 200
                (DownloadUrlBody
                   (getSignedUrl env command (downloadExpiry env))
                   (toISOString env (now env + downloadExpiry env * 1000))
                   (File.originalName file))
        /\ presigned w' = presigned w ++ [command])
  /\ (~ ready ->
      res = Response.mk 400
              (ErrorBody "INVALID_STATE"
                 ("File is not ready for download (status: "
                    +:+ FileStatus_to_string (File.status file) +:+ ")"))
      /\ w' = w).
Proof.
  intros Hauth Hget ready res w'. subst ready res w'.
  unfold route, downloadUrl_handler, bind, req_auth.
  rewrite Hauth. cbn [ret]. rewrite Hget.
  destruct (File.status file) eqn:Hst; cbn;
    (split; [split; [intros; try discriminate; auto
                    | intros [H|H]; try discriminate H; reflexivity]|]);
    (split; [intros [H|H]; try discriminate H; eexists; split; reflexivity
            | intros Hn; try (exfalso; apply Hn; auto; fail);
              split; reflexivity]).
Qed.

Lemma download_url_witness :
  Response.statusCode
    (fst (route Sample.env
            (downloadUrl_handler Sample.env
               (Sample.request Sample.acme "c-1"))
            (Sample.with_report UPLOADED))) = 200
  /\ Response.statusCode
       (fst (route Sample.env
               (downloadUrl_handler Sample.env
                  (Sample.request Sample.acme "c-1"))
               (Sample.with_report PROCESSING))) <> 200.
Proof.
  split.
  - apply (download_url_iff_uploaded_or_processed Sample.env
             (Sample.request Sample.acme "c-1") Sample.acme
             (Sample.with_report UPLOADED)
             (File.with_status UPLOADED Sample.report)).
    + reflexivity.
    + vm_compute. reflexivity.
    + left. reflexivity.
  - intros H.
    apply (download_url_iff_uploaded_or_processed Sample.env
             (Sample.request Sample.acme "c-1") Sample.acme
             (Sample.with_report PROCESSING)
             (File.with_status PROCESSING Sample.report)) in H.
    + destruct H as [H|H]; discriminate H.
    + reflexivity.
    + vm_compute. reflexivity.
Defined.

(** ** Confirmation of a file that is not pending *)

(** C4. Confirming the upload of a file the request resolves to and whose
    status is not PENDING_UPLOAD answers INVALID_STATE and changes nothing:
    the registry, the audit log and the queue are as before.  An already
    UPLOADED file is such a case. *)
Theorem confirm_upload_rejects_non_pending
    (env : Env) (req : Request.t) (a : AuthContext.t) (w : World)
    (file : File.t) :
  Request.auth req = Some a ->
  getFileById (Request.params_id req) (AuthContext.organizationId a) w
    = (Returned (Some file), w) ->
  File.status file <> PENDING_UPLOAD ->
  route env (confirmUpload_handler env req) w
    = (Response.mk 400
         (ErrorBody "INVALID_STATE"
            ("File is already in "
               +:+ FileStatus_to_string (File.status file) +:+ " state")),
       w).
Proof.
  intros Hauth Hget Hst.
  unfold route, confirmUpload_handler, bind, req_auth.
  rewrite Hauth. cbn [ret]. rewrite Hget.
  rewrite bool_decide_false by assumption. reflexivity.
Qed.

Lemma confirm_upload_rejects_uploaded_witness :
  route Sample.env
    (confirmUpload_handler Sample.env (Sample.request Sample.acme "c-2"))
    (Sample.with_report UPLOADED)
  = (Response.mk 400
       (ErrorBody "INVALID_STATE" "File is already in UPLOADED state"),
     Sample.with_report UPLOADED).
Proof.
  apply (confirm_upload_rejects_non_pending Sample.env
           (Sample.request Sample.acme "c-2") Sample.acme
           (Sample.with_report UPLOADED)
           (File.with_status UPLOADED Sample.report)).
  - reflexivity.
  - vm_compute. reflexivity.
  - discriminate.
Defined.

(** ** Tenant isolation *)

(** C5. Whenever a get, download-url, delete or confirm-upload handler runs
    for a request authenticated under an organization and the addressed
    file belongs to another organization, the answer is the 404 NOT_FOUND
    body and nothing is read out, changed, signed or enqueued.  An absent
    file and a soft-deleted file get the very same answer and leave the
    very same world, so the three cases cannot be told apart. *)
Theorem cross_tenant_not_found
    (env : Env) (req : Request.t) (a : AuthContext.t) (w : World)
    (operation : Env -> Request.t -> M Response.t) :
  In operation file_operations ->
  Request.auth req = Some a ->
  hidden_from (AuthContext.organizationId a) (Request.params_id req) w ->
  route env (operation env req) w
    = (Response.mk 404 (ErrorBody "NOT_FOUND" "File not found"), w).
Proof.
  intros Hop Hauth Hhid.
  apply getFileById_hidden in Hhid.
  unfold file_operations in Hop. cbn in Hop.
  destruct Hop as [<-|[<-|[<-|[<-|[]]]]];
    unfold route, getFile_handler, downloadUrl_handler, delete_handler,
      confirmUpload_handler, bind, req_auth;
    rewrite Hauth; cbn [ret]; rewrite Hhid; reflexivity.
Qed.

Lemma cross_tenant_not_found_witness :
  route Sample.env
    (downloadUrl_handler Sample.env (Sample.request Sample.globex "c-3"))
    (Sample.with_report PROCESSED)
  = (Response.mk 404 (ErrorBody "NOT_FOUND" "File not found"),
     Sample.with_report PROCESSED).
Proof.
  apply (cross_tenant_not_found Sample.env
           (Sample.request Sample.globex "c-3") Sample.globex
           (Sample.with_report PROCESSED) downloadUrl_handler).
  - right. left. reflexivity.
  - reflexivity.
  - apply (hidden_other_tenant _ _ _
             (File.with_status PROCESSED Sample.report)).
    + vm_compute. reflexivity.
    + discriminate.
Defined.

(** ** Permission check *)

Lemma includes_In (xs : list string) (x : string) :
  includes xs x = true <-> In x xs.
Proof.
  unfold includes. rewrite existsb_exists. split.
  - intros (y & Hy & Heq). apply String.eqb_eq in Heq. subst. assumption.
  - intros H. exists x. split; [assumption | apply String.eqb_refl].
Qed.

(** C6. For every authorization context and required permission,
    [requirePermission] lets the request through iff the permission or
    'admin' is in the context's permission set, and otherwise answers 403
    with the AUTHORIZATION_ERROR code. *)
Theorem requirePermission_iff
    (permission : string) (a : AuthContext.t) :
  let granted :=
    In permission (AuthContext.permissions a)
    \/ In "admin" (AuthContext.permissions a) in
  (requirePermission permission (Some a) = Next <-> granted)
  /\ (requirePermission permission (Some a)
        = Respond (Response.mk 403
                     (ErrorBody "AUTHORIZATION_ERROR"
                        ("Permission '" +:+ permission +:+ "' required.")))
      <-> ~ granted).
Proof.
  cbn zeta. unfold requirePermission.
  rewrite <- !includes_In.
  destruct (includes (AuthContext.permissions a) permission);
    destruct (includes (AuthContext.permissions a) "admin"); cbn;
    repeat split; intros H; try discriminate H; try reflexivity;
    try tauto; try (intros [K|K]; discriminate K);
    try (exfalso; apply H; tauto);
    try (destruct H as [K|K]; discriminate K).
Qed.

(** ** Upload confirmation *)

Lemma enqueueFileProcessing_world (params : FileJobData.t) (w : World) :
  enqueueFileProcessing params w
  = (Returned tt,
     set_fileProcessingQueue
       (fileProcessingQueue w
          ++ [Job.mk FILE_JOBS.VALIDATE_FILE params
                (JobsOptions.mk (Some 1) (Some 3)
                   (Some (Backoff.mk exponential 1000)));
              Job.mk FILE_JOBS.GENERATE_CHECKSUM params
                (JobsOptions.mk (Some 2) (Some 3)
                   (Some (Backoff.mk exponential 1000)));
              Job.mk FILE_JOBS.EXTRACT_METADATA params
                (JobsOptions.mk (Some 3) (Some 3)
                   (Some (Backoff.mk exponential 1000)))]
          ++ (if String.prefix "image/" (FileJobData.mimeType params)
              then [Job.mk FILE_JOBS.GENERATE_THUMBNAIL params
                      (JobsOptions.mk (Some 4) (Some 3)
                         (Some (Backoff.mk exponential 1000)))]
              else []))
       w).
Proof.
  unfold enqueueFileProcessing, bind, queue_add, ret,
    set_fileProcessingQueue.
  destruct w as [fs al q ps ks kq]. cbn.
  destruct (String.prefix "image/" (FileJobData.mimeType params)); cbn;
    rewrite <- ?app_assoc; cbn; rewrite ?app_nil_r; reflexivity.
Qed.

(** The handler on a file it finds, whatever the file's status. *)
Lemma confirmUpload_found
    (env : Env) (req : Request.t) (a : AuthContext.t) (w : World)
    (file : File.t) :
  Request.auth req = Some a ->
  getFileById (Request.params_id req) (AuthContext.organizationId a) w
    = (Returned (Some file), w) ->
  route env (confirmUpload_handler env req) w
  = if bool_decide (File.status file = PENDING_UPLOAD)
    then
      (Response.mk 200
         (DataMessageBody (serializeFile (File.with_status UPLOADED file))
            "File upload confirmed. Processing queued."),
       snd (enqueueFileProcessing
              (FileJobData.mk (File.id file) (AuthContext.organizationId a)
                 (File.key file) (File.bucket file) (File.mimeType file)
                 (Request.correlationId req))
              (snd (createAuditLog
                      (AuditLog.mk (Some (File.id file))
                         (AuthContext.organizationId a)
                         AuditActions.UPLOADED (AuthContext.apiKeyId a)
                         None None None (Request.correlationId req))
                      (set_files
                         (<[File.id file := File.with_status UPLOADED file]>
                            (files w)) w)))))
    else (INVALID_STATE_confirm (File.status file), w).
Proof.
  intros Hauth Hget.
  pose proof Hget as Hrow. apply getFileById_Some in Hrow.
  destruct Hrow as (Hrow & Hid & _ & _).
  unfold route, confirmUpload_handler, bind, req_auth.
  rewrite Hauth. cbn [ret]. rewrite Hget.
  destruct (bool_decide (File.status file = PENDING_UPLOAD)); cbn [negb];
    [|reflexivity].
  unfold markFileUploaded, updateFileStatus, prisma_file_update.
  rewrite Hid, Hrow. cbn [createAuditLog snd].
  rewrite !enqueueFileProcessing_world. reflexivity.
Qed.

(** Run alone, the suspended handler answers what the handler answers. *)
Lemma confirm_run_handler (env : Env) (req : Request.t) (w : World) :
  confirm_run 4 env req AtGetFileById w
  = (Responded (fst (route env (confirmUpload_handler env req) w)),
     snd (route env (confirmUpload_handler env req) w)).
Proof.
  unfold route, confirmUpload_handler, bind, req_auth. resume_step.
  destruct (Request.auth req) as [a|]; [|reflexivity].
  resume_step.
  destruct (getFileById (Request.params_id req)
              (AuthContext.organizationId a) w) as [[[file|]|e] w1];
    resume_step; [|reflexivity|reflexivity].
  destruct (negb (bool_decide (File.status file = PENDING_UPLOAD)));
    resume_step; [reflexivity|].
  destruct (markFileUploaded (File.id file) (AuthContext.organizationId a) w1)
    as [[updated|e] w2]; resume_step; [|reflexivity].
  rewrite !enqueueFileProcessing_world. resume_step. reflexivity.
Qed.

Lemma markFileUploaded_any_status
    (fileId organizationId : string) (w : World) (f : File.t) :
  files w !! fileId = Some f ->
  markFileUploaded fileId organizationId w
  = (Returned (File.with_status UPLOADED f),
     set_files (<[fileId := File.with_status UPLOADED f]> (files w)) w).
Proof.
  intros Hrow.
  unfold markFileUploaded, updateFileStatus, prisma_file_update.
  rewrite Hrow. reflexivity.
Qed.

Lemma jobs_for_enqueued (name : string) (params : FileJobData.t)
    (w : World) :
  In name required_tasks ->
  length
    (jobs_for name (FileJobData.fileId params)
       (fileProcessingQueue (snd (enqueueFileProcessing params w))))
  = S (length
         (jobs_for name (FileJobData.fileId params)
            (fileProcessingQueue w))).
Proof.
  intros Hname. rewrite enqueueFileProcessing_world.
  cbn [snd set_fileProcessingQueue fileProcessingQueue].
  unfold jobs_for. rewrite !List.filter_app, !length_app.
  unfold required_tasks in Hname. cbn [In] in Hname.
  destruct (String.prefix "image/" (FileJobData.mimeType params));
    destruct Hname as [<-|[<-|[<-|[]]]];
    cbn [List.filter Job.name Job.data FileJobData.fileId];
    rewrite ?String.eqb_refl; cbn; lia.
Qed.

(** C1 (as amended). The write that moves a file to UPLOADED is an update
    by file id alone: it goes through whatever status is persisted.  The
    PENDING_UPLOAD pre-state is checked by the handler on an earlier read.
    So of two confirmations of the same file that run one after the other,
    the first succeeds and leaves the file UPLOADED, the second is rejected
    with INVALID_STATE and changes nothing, and each required task is
    enqueued once. *)
Theorem confirm_upload_one_after_the_other
    (env1 env2 : Env) (req1 req2 : Request.t) (a1 a2 : AuthContext.t)
    (w : World) (file : File.t) :
  Request.auth req1 = Some a1 ->
  Request.auth req2 = Some a2 ->
  AuthContext.organizationId a2 = AuthContext.organizationId a1 ->
  Request.params_id req2 = Request.params_id req1 ->
  getFileById (Request.params_id req1) (AuthContext.organizationId a1) w
    = (Returned (Some file), w) ->
  File.status file = PENDING_UPLOAD ->
  let first := route env1 (confirmUpload_handler env1 req1) w in
  let second :=
    route env2 (confirmUpload_handler env2 req2) (snd first) in
  (forall (w0 : World) (f0 : File.t),
      files w0 !! File.id file = Some f0 ->
      fst (markFileUploaded (File.id file)
             (AuthContext.organizationId a1) w0)
      = Returned (File.with_status UPLOADED f0))
  /\ Response.statusCode (fst first) = 200
  /\ status_of (File.id file) (snd first) = Some UPLOADED
  /\ second
     = (Response.mk 400
          (ErrorBody "INVALID_STATE" "File is already in UPLOADED state"),
        snd first)
  /\ (forall name : string,
         In name required_tasks ->
         length (jobs_for name (File.id file)
                   (fileProcessingQueue (snd second)))
         = S (length (jobs_for name (File.id file)
                        (fileProcessingQueue w)))).
Proof.
  intros Hauth1 Hauth2 Horg Hid Hget Hst first second.
  pose proof Hget as Hrow. apply getFileById_Some in Hrow.
  destruct Hrow as (Hrow & Hfid & Hforg & _).
  assert (Hfirst :
    first
    = (Response.mk 200
         (DataMessageBody (serializeFile (File.with_status UPLOADED file))
            "File upload confirmed. Processing queued."),
       snd (enqueueFileProcessing
              (FileJobData.mk (File.id file) (AuthContext.organizationId a1)
                 (File.key file) (File.bucket file) (File.mimeType file)
                 (Request.correlationId req1))
              (snd (createAuditLog
                      (AuditLog.mk (Some (File.id file))
                         (AuthContext.organizationId a1)
                         AuditActions.UPLOADED (AuthContext.apiKeyId a1)
                         None None None (Request.correlationId req1))
                      (set_files
                         (<[File.id file := File.with_status UPLOADED file]>
                            (files w)) w)))))).
  { subst first. rewrite (confirmUpload_found env1 req1 a1 w file Hauth1 Hget).
    rewrite bool_decide_true by assumption. reflexivity. }
  assert (Hfiles :
    files (snd first)
    = <[File.id file := File.with_status UPLOADED file]> (files w)).
  { rewrite Hfirst. cbn [snd]. rewrite enqueueFileProcessing_world.
    reflexivity. }
  assert (Hget2 :
    getFileById (Request.params_id req2) (AuthContext.organizationId a2)
      (snd first)
    = (Returned (Some (File.with_status UPLOADED file)), snd first)).
  { apply getFileById_Some. rewrite Hfiles, Hid, Horg, <- Hfid.
    rewrite lookup_insert_eq. repeat split; auto; try discriminate. }
  assert (Hsecond : second = (INVALID_STATE_confirm UPLOADED, snd first)).
  { subst second.
    rewrite (confirmUpload_found env2 req2 a2 (snd first)
               (File.with_status UPLOADED file) Hauth2 Hget2).
    reflexivity. }
  split; [|split; [|split; [|split]]].
  - intros w0 f0 Hf0.
    rewrite (markFileUploaded_any_status _ _ _ _ Hf0). reflexivity.
  - rewrite Hfirst. reflexivity.
  - unfold status_of. rewrite Hfiles, lookup_insert_eq. reflexivity.
  - exact Hsecond.
  - intros name Hname. rewrite Hsecond. cbn [snd]. rewrite Hfirst.
    cbn [snd].
    rewrite (jobs_for_enqueued name
               (FileJobData.mk (File.id file) (AuthContext.organizationId a1)
                  (File.key file) (File.bucket file) (File.mimeType file)
                  (Request.correlationId req1)) _ Hname).
    reflexivity.
Qed.

Lemma confirm_upload_one_after_the_other_witness :
  let first :=
    route Sample.env
      (confirmUpload_handler Sample.env (Sample.request Sample.acme "c-1"))
      (Sample.with_report PENDING_UPLOAD) in
  Response.statusCode (fst first) = 200
  /\ route Sample.env
       (confirmUpload_handler Sample.env
          (Sample.request Sample.acme_second_key "c-2"))
       (snd first)
     = (Response.mk 400
          (ErrorBody "INVALID_STATE" "File is already in UPLOADED state"),
        snd first).
Proof.
  assert (Hget :
    getFileById "file-1" "org-A" (Sample.with_report PENDING_UPLOAD)
    = (Returned (Some Sample.report), Sample.with_report PENDING_UPLOAD)).
  { vm_compute. reflexivity. }
  destruct (confirm_upload_one_after_the_other Sample.env Sample.env
              (Sample.request Sample.acme "c-1")
              (Sample.request Sample.acme_second_key "c-2")
              Sample.acme Sample.acme_second_key
              (Sample.with_report PENDING_UPLOAD) Sample.report
              eq_refl eq_refl eq_refl eq_refl Hget eq_refl)
    as (_ & Hfirst & _ & Hsecond & _).
  split; [exact Hfirst | exact Hsecond].
Defined.

(** C1 (as stated) fails.  Two confirmations of the same pending file, by
    two keys of its organization, resumed in turn: both read
    PENDING_UPLOAD before either writes, both writes go through, both
    answer 200, and every task is in the queue twice.  The write itself
    also goes through on a file persisted as PROCESSED. *)
Lemma racing_confirmations_both_succeed :
  let s :=
    interleave Sample.env
      (Sample.request Sample.acme "c-1")
      (Sample.request Sample.acme_second_key "c-2")
      [FirstRequest; SecondRequest; FirstRequest; SecondRequest;
       FirstRequest; SecondRequest; FirstRequest; SecondRequest]
      (Sample.with_report PENDING_UPLOAD) in
  confirmed (pc1 s) = true
  /\ confirmed (pc2 s) = true
  /\ length (jobs_for FILE_JOBS.VALIDATE_FILE "file-1"
               (fileProcessingQueue (world s))) = 2%nat
  /\ length (jobs_for FILE_JOBS.GENERATE_CHECKSUM "file-1"
               (fileProcessingQueue (world s))) = 2%nat
  /\ length (jobs_for FILE_JOBS.EXTRACT_METADATA "file-1"
               (fileProcessingQueue (world s))) = 2%nat
  /\ fst (markFileUploaded "file-1" "org-A" (Sample.with_report PROCESSED))
     = Returned (File.with_status UPLOADED Sample.report).
Proof. vm_compute. repeat split. Qed.

(** ** Completion of processing *)

Lemma processFileJob_world (env : Env) (job : Job.t) (w : World) :
  snd (processFileJob env job w) = w.
Proof.
  unfold processFileJob.
  repeat match goal with
         | |- context [if ?b then _ else _] => destruct b
         end; reflexivity.
Qed.

(** C2 (as amended). [updateFileMetadata] moves a file to PROCESSED
    whatever its status was and whatever tasks have run: no record of task
    successes is consulted.  The metadata, the checksum (when one is given
    and is not empty) and the status are written in one update of the row,
    all other columns and all other rows being left as they were.  The
    worker's [processFileJob] never writes to the registry, for
    generate-thumbnail as for the three other tasks. *)
Theorem updateFileMetadata_sets_processed
    (env : Env) (fileId : string) (metadata : Json)
    (checksum : option string) (w : World) (f : File.t) :
  files w !! fileId = Some f ->
  (exists f' : File.t,
      updateFileMetadata fileId metadata checksum w
      = (Returned f', set_files (<[fileId := f']> (files w)) w)
      /\ File.status f' = PROCESSED
      /\ File.metadata f' = Some metadata
      /\ File.checksum f'
         = match checksum with
           | Some c =>
               if bool_decide (c = EmptyString) then File.checksum f
               else Some c
           | None => File.checksum f
           end
      /\ File.with_status (File.status f)
           (File.with_metadata (File.metadata f)
              (File.with_checksum (File.checksum f) f')) = f)
  /\ (forall (job : Job.t) (w0 : World),
         snd (processFileJob env job w0) = w0)
  /\ (forall jobs : list Job.t,
         pipeline_run env (map JobProcessed jobs) w = w).
Proof.
  intros Hrow. split; [|split].
  - unfold updateFileMetadata, prisma_file_update. rewrite Hrow.
    eexists. split; [reflexivity|].
    destruct f; destruct checksum as [c|];
      [destruct (bool_decide (c = EmptyString))|]; cbn; auto.
  - intros job w0. apply processFileJob_world.
  - intros jobs. revert w Hrow. induction jobs as [|j jobs IH]; intros w Hrow.
    + reflexivity.
    + cbn [map]. unfold pipeline_run in *. cbn [fold_left pipeline_step].
      rewrite processFileJob_world. apply IH. exact Hrow.
Qed.

Lemma updateFileMetadata_sets_processed_witness :
  status_of "file-1"
    (snd (updateFileMetadata "file-1" (JObj []) (Some "sha256-abc")
            (Sample.with_report FAILED)))
  = Some PROCESSED.
Proof.
  destruct (updateFileMetadata_sets_processed Sample.env "file-1" (JObj [])
              (Some "sha256-abc") (Sample.with_report FAILED)
              (File.with_status FAILED Sample.report))
    as ((f' & Hupd & Hst & _) & _).
  - vm_compute. reflexivity.
  - rewrite Hupd. unfold status_of. cbn [snd set_files files].
    rewrite lookup_insert_eq. cbn. rewrite Hst. reflexivity.
Defined.

(** C2 (as stated) fails.  A file that is still PENDING_UPLOAD, for which
    no task has run, becomes PROCESSED by one [updateFileMetadata] call;
    and a file whose three required tasks have all reported success stays
    UPLOADED. *)
Lemma processed_without_required_tasks :
  status_of "file-1"
    (pipeline_run Sample.env
       [MetadataUpdated "file-1" (JObj []) None]
       (Sample.with_report PENDING_UPLOAD))
  = Some PROCESSED
  /\ all_required_succeeded Sample.env "file-1"
       [MetadataUpdated "file-1" (JObj []) None]
       (Sample.with_report PENDING_UPLOAD)
     = false
  /\ all_required_succeeded Sample.env "file-1"
       [JobProcessed (Sample.job FILE_JOBS.EXTRACT_METADATA);
        JobProcessed (Sample.job FILE_JOBS.VALIDATE_FILE);
        JobProcessed (Sample.job FILE_JOBS.GENERATE_CHECKSUM)]
       (Sample.with_report UPLOADED)
     = true
  /\ status_of "file-1"
       (pipeline_run Sample.env
          [JobProcessed (Sample.job FILE_JOBS.EXTRACT_METADATA);
           JobProcessed (Sample.job FILE_JOBS.VALIDATE_FILE);
           JobProcessed (Sample.job FILE_JOBS.GENERATE_CHECKSUM)]
          (Sample.with_report UPLOADED))
     = Some UPLOADED.
Proof. vm_compute. repeat split. Qed.

(** ** Authentication *)

Lemma validateApiKey_found (env : Env) (key : string) (w : World)
    (k : ApiKey.t) :
  String.prefix "cv_" key = true ->
  find (fun r => String.eqb (ApiKey.hashedKey r) (hashApiKey env key))
    (apiKeys w) = Some k ->
  fst (validateApiKey env key w)
  = Returned (if is_expired env k then None else Some k).
Proof.
  intros Hfmt Hfind. unfold validateApiKey.
  assert (Hne : bool_decide (key = EmptyString) = false).
  { apply bool_decide_eq_false. intros ->. discriminate Hfmt. }
  rewrite Hne, Hfmt. cbn [orb negb].
  unfold bind, prisma_apiKey_findFirst. rewrite Hfind.
  destruct (is_expired env k); [reflexivity|].
  unfold touch_lastUsedAt.
  destruct (lastUsedWriteFails env); reflexivity.
Qed.

(** C7. [validateApiKey] answers [null] without sending any query to the
    credential store when the key lacks the [cv_] prefix; it answers [null]
    when the row found has an expiry before the current time; and when the
    row found is not expired it answers that row whether the write of
    [lastUsedAt] goes through or is lost, a lost write leaving the stored
    keys as they were. *)
Theorem validateApiKey_contract (env : Env) (key : string) (w : World) :
  (String.prefix "cv_" key = false ->
   validateApiKey env key w = (Returned None, w))
  /\ (forall (k : ApiKey.t) (e : Z),
         String.prefix "cv_" key = true ->
         find (fun r => String.eqb (ApiKey.hashedKey r) (hashApiKey env key))
           (apiKeys w) = Some k ->
         ApiKey.expiresAt k = Some e ->
         e < now env ->
         fst (validateApiKey env key w) = Returned None)
  /\ (forall (k : ApiKey.t) (lost : bool),
         String.prefix "cv_" key = true ->
         find (fun r => String.eqb (ApiKey.hashedKey r) (hashApiKey env key))
           (apiKeys w) = Some k ->
         is_expired env k = false ->
         fst (validateApiKey (with_lastUsedWrite lost env) key w)
         = Returned (Some k)
         /\ apiKeys
              (snd (validateApiKey (with_lastUsedWrite true env) key w))
            = apiKeys w).
Proof.
  split; [|split].
  - intros Hfmt. unfold validateApiKey. rewrite Hfmt.
    rewrite orb_true_r. reflexivity.
  - intros k e Hfmt Hfind Hexp Hlt.
    rewrite (validateApiKey_found env key w k Hfmt Hfind).
    unfold is_expired. rewrite Hexp.
    replace (e <? now env) with true by (symmetry; apply Z.ltb_lt; exact Hlt).
    reflexivity.
  - intros k lost Hfmt Hfind Hlive. split.
    + rewrite (validateApiKey_found (with_lastUsedWrite lost env) key w k
                 Hfmt Hfind).
      change (is_expired (with_lastUsedWrite lost env) k)
        with (is_expired env k).
      rewrite Hlive. reflexivity.
    + unfold validateApiKey.
      assert (Hne : bool_decide (key = EmptyString) = false).
      { apply bool_decide_eq_false. intros ->. discriminate Hfmt. }
      rewrite Hne, Hfmt. cbn [orb negb].
      unfold bind, prisma_apiKey_findFirst.
      change (hashApiKey (with_lastUsedWrite true env) key)
        with (hashApiKey env key).
      rewrite Hfind.
      change (is_expired (with_lastUsedWrite true env) k)
        with (is_expired env k).
      rewrite Hlive. reflexivity.
Qed.

Lemma validateApiKey_contract_witness :
  validateApiKey Sample.env "sk_live_123" (Sample.with_key Sample.stored_key)
  = (Returned None, Sample.with_key Sample.stored_key)
  /\ fst (validateApiKey Sample.env "cv_0123abcd-secret"
            (Sample.with_key Sample.stored_key))
     = Returned None
  /\ fst (validateApiKey (with_lastUsedWrite true Sample.env)
            "cv_89abcdef-secret" (Sample.with_key Sample.lasting_key))
     = Returned (Some Sample.lasting_key).
Proof.
  split; [|split].
  - apply (validateApiKey_contract Sample.env "sk_live_123"
             (Sample.with_key Sample.stored_key)).
    reflexivity.
  - apply (proj1 (proj2 (validateApiKey_contract Sample.env
                           "cv_0123abcd-secret"
                           (Sample.with_key Sample.stored_key)))
             Sample.stored_key 1600000000000).
    + reflexivity.
    + reflexivity.
    + reflexivity.
    + vm_compute. reflexivity.
  - apply (proj2 (proj2 (validateApiKey_contract Sample.env
                           "cv_89abcdef-secret"
                           (Sample.with_key Sample.lasting_key)))
             Sample.lasting_key true).
    + reflexivity.
    + reflexivity.
    + reflexivity.
Defined.

(** ** Fan-out of the processing tasks *)

(** C8. [enqueueFileProcessing] appends to the queue exactly the jobs
    validate-file, generate-checksum and extract-metadata, followed by
    generate-thumbnail iff the mime type starts with [image/]; every job
    carries the queue's retry policy, 3 attempts with exponential backoff.
    Those are the jobs the confirm-upload handler enqueues for the pending
    file it confirms. *)
Theorem enqueueFileProcessing_jobs (params : FileJobData.t) (w : World) :
  let retry p :=
    JobsOptions.mk (Some p) (Some 3) (Some (Backoff.mk exponential 1000)) in
  let jobs data :=
    [Job.mk "validate-file" data (retry 1);
     Job.mk "generate-checksum" data (retry 2);
     Job.mk "extract-metadata" data (retry 3)]
    ++ (if String.prefix "image/" (FileJobData.mimeType data)
        then [Job.mk "generate-thumbnail" data (retry 4)]
        else []) in
  enqueueFileProcessing params w
  = (Returned tt,
     set_fileProcessingQueue (fileProcessingQueue w ++ jobs params) w)
  /\ (forall (env : Env) (req : Request.t) (a : AuthContext.t)
             (file : File.t),
         Request.auth req = Some a ->
         getFileById (Request.params_id req)
           (AuthContext.organizationId a) w = (Returned (Some file), w) ->
         File.status file = PENDING_UPLOAD ->
         fileProcessingQueue
           (snd (route env (confirmUpload_handler env req) w))
         = fileProcessingQueue w
           ++ jobs (FileJobData.mk (File.id file)
                      (AuthContext.organizationId a) (File.key file)
                      (File.bucket file) (File.mimeType file)
                      (Request.correlationId req))).
Proof.
  cbn zeta. split.
  - rewrite enqueueFileProcessing_world. reflexivity.
  - intros env req a file Hauth Hget Hst.
    rewrite (confirmUpload_found env req a w file Hauth Hget).
    rewrite bool_decide_true by assumption. cbn [snd].
    rewrite enqueueFileProcessing_world. reflexivity.
Qed.

Lemma enqueueFileProcessing_jobs_witness :
  map Job.name
    (fileProcessingQueue
       (snd (route Sample.env
               (confirmUpload_handler Sample.env
                  (Sample.request Sample.acme "c-1"))
               (Sample.with_report PENDING_UPLOAD))))
  = ["validate-file"; "generate-checksum"; "extract-metadata"].
Proof.
  rewrite (proj2 (enqueueFileProcessing_jobs
                    (FileJobData.mk "file-1" "org-A" "k" "b" "text/csv" None)
                    (Sample.with_report PENDING_UPLOAD))
             Sample.env (Sample.request Sample.acme "c-1") Sample.acme
             Sample.report).
  - reflexivity.
  - reflexivity.
  - vm_compute. reflexivity.
  - reflexivity.
Defined.

(** ** Upload requests *)


Lemma parse_size_inr (n : JsNumber) (z : Z) :
  parse_size (Some (JNum n)) = inr z ->
  positive_integer_within_limit n /\ 0 < z <= MAX_FILE_SIZE.
Proof.
  unfold parse_size.
  destruct n as [q| | |]; try discriminate.
  destruct (Number_isInteger (Finite q)) eqn:Hint; [|discriminate].
  destruct (Number_le (Finite q) 0) eqn:Hle; [discriminate|].
  destruct (Number_gt (Finite q) MAX_FILE_SIZE) eqn:Hgt; [discriminate|].
  cbn. intros H. inversion H; subst z. clear H.
  cbn in Hint, Hle, Hgt.
  apply bool_decide_eq_true in Hint.
  apply negb_false_iff, Qle_bool_iff in Hgt.
  assert (Hpos : ~ (q <= inject_Z 0)%Q).
  { intros Hc. apply Qle_bool_iff in Hc. congruence. }
  rewrite <- (Qred_correct q) in Hgt, Hpos.
  assert (Hrange : 0 < Qnum (Qred q) <= MAX_FILE_SIZE).
  { destruct (Qred q) as [m d]. cbn in Hint. subst d.
    unfold Qle, inject_Z in *. cbn in *. lia. }
  split; [|exact Hrange].
  exists (Qnum (Qred q)). split; [|exact Hrange].
  rewrite <- (Qred_correct q) at 1.
  destruct (Qred q) as [m d]. cbn in Hint. subst d. reflexivity.
Qed.

Lemma safeParse_success (body : Json) (data : UploadRequest.t) :
  uploadRequestSchema_safeParse body = SafeParseSuccess data ->
  In (UploadRequest.contentType data) ALLOWED_MIME_TYPES
  /\ 0 < UploadRequest.size data <= MAX_FILE_SIZE.
Proof.
  unfold uploadRequestSchema_safeParse.
  destruct body as [| | | |?|kvs]; try discriminate.
  destruct (parse_filename _) as [?|f]; [discriminate|].
  destruct (parse_contentType _) as [?|c] eqn:Hc; [discriminate|].
  destruct (parse_size _) as [?|z] eqn:Hz; [discriminate|].
  destruct (parse_tags _) as [?|t]; [discriminate|].
  destruct (parse_metadata _) as [?|m]; [discriminate|].
  intros H. inversion H; subst data. clear H.
  cbn [UploadRequest.contentType UploadRequest.size]. split.
  - unfold parse_contentType in Hc.
    destruct (get_prop "contentType" kvs) as [[| | |s| |]|];
      try discriminate.
    destruct (includes ALLOWED_MIME_TYPES s) eqn:Hin; [|discriminate].
    inversion Hc; subst. apply includes_In. exact Hin.
  - destruct (get_prop "size" kvs) as [[| |n| | |]|];
      try discriminate.
    apply parse_size_inr in Hz. tauto.
Qed.

Lemma safeParse_error (kvs : list (string * Json)) :
  (exists errs, parse_contentType (get_prop "contentType" kvs) = inl errs)
  \/ (exists errs, parse_size (get_prop "size" kvs) = inl errs) ->
  exists errors,
    uploadRequestSchema_safeParse (JObj kvs) = SafeParseError errors.
Proof.
  unfold uploadRequestSchema_safeParse.
  intros [[errs H]|[errs H]]; rewrite H;
    destruct (parse_filename _); destruct (parse_tags _);
    destruct (parse_metadata _);
    try destruct (parse_contentType _); try destruct (parse_size _);
    eexists; reflexivity.
Qed.

(** C9. The upload-url handler answers 400 VALIDATION_ERROR, and creates
    nothing, when the declared content type is not one of the allowed types
    or when the declared size is not a positive integer within the maximum
    of 100 MB.  When it answers 201 it has created a row with status
    PENDING_UPLOAD, no checksum, an allowed type and a size within the
    limit, and has signed one PUT for that row's key: the record exists
    when the URL is issued. *)
Theorem upload_url_validates_and_creates_pending
    (env : Env) (req : Request.t) (w : World) (kvs : list (string * Json)) :
  Request.body req = JObj kvs ->
  let rejected :=
    exists errors,
      route env (uploadUrl_handler env req) w
      = (Response.mk 400
           (ErrorDetailsBody "VALIDATION_ERROR" "Invalid request body"
              errors), w) in
  (forall c : string,
      get_prop "contentType" kvs = Some (JStr c) ->
      ~ In c ALLOWED_MIME_TYPES -> rejected)
  /\ (forall n : JsNumber,
         get_prop "size" kvs = Some (JNum n) ->
         ~ positive_integer_within_limit n -> rejected)
  /\ (forall (res : Response.t) (w' : World),
         route env (uploadUrl_handler env req) w = (res, w') ->
         Response.statusCode res = 201 ->
         exists file : File.t,
           files w !! newRowId env = None
           /\ files w' = <[newRowId env := file]> (files w)
           /\ File.status file = PENDING_UPLOAD
           /\ File.checksum file = None
           /\ In (File.mimeType file) ALLOWED_MIME_TYPES
           /\ 0 < File.size file <= MAX_FILE_SIZE
           /\ presigned w'
              = presigned w
                ++ [PutObjectCommand (configured_bucket env) (File.key file)
                      (File.mimeType file) (File.size file) None]).
Proof.
  intros Hbody rejected.
  assert (Hrej :
    (exists errors,
        uploadRequestSchema_safeParse (JObj kvs) = SafeParseError errors) ->
    rejected).
  { intros [errors He]. exists errors.
    unfold route, uploadUrl_handler. rewrite Hbody, He. reflexivity. }
  split; [|split].
  - intros c Hc Hnot. apply Hrej, safeParse_error. left.
    unfold parse_contentType. rewrite Hc.
    destruct (includes ALLOWED_MIME_TYPES c) eqn:Hin.
    + exfalso. apply Hnot, includes_In, Hin.
    + eexists. reflexivity.
  - intros n Hn Hnot. apply Hrej, safeParse_error. right.
    rewrite Hn.
    destruct (parse_size (Some (JNum n))) as [errs|z] eqn:Hz.
    + eexists. reflexivity.
    + exfalso. apply Hnot. apply parse_size_inr in Hz. tauto.
  - intros res w' Hrun Hcode.
    unfold route, uploadUrl_handler in Hrun.
    destruct (uploadRequestSchema_safeParse (Request.body req))
      as [data|errors] eqn:Hparse.
    2:{ cbn in Hrun. inversion Hrun; subst. discriminate Hcode. }
    apply safeParse_success in Hparse. destruct Hparse as [Hmime Hsize].
    unfold bind, req_auth in Hrun.
    destruct (Request.auth req) as [a|].
    2:{ cbn in Hrun. inversion Hrun; subst.
        destruct (development env); discriminate Hcode. }
    cbn [ret] in Hrun. unfold createFileRecord in Hrun.
    destruct (files w !! newRowId env) eqn:Hfresh.
    { inversion Hrun; subst.
      destruct (development env); discriminate Hcode. }
    cbn in Hrun. inversion Hrun; subst. clear Hrun.
    eexists. repeat split; try reflexivity; try assumption; apply Hsize.
Qed.

Lemma upload_url_validates_and_creates_pending_witness :
  (exists errors,
      route Sample.env
        (uploadUrl_handler Sample.env
           (Sample.upload_request "application/zip" (Finite 1200)))
        (Sample.with_report UPLOADED)
      = (Response.mk 400
           (ErrorDetailsBody "VALIDATION_ERROR" "Invalid request body"
              errors),
         Sample.with_report UPLOADED))
  /\ (exists file : File.t,
         files
           (snd (route Sample.env
                   (uploadUrl_handler Sample.env
                      (Sample.upload_request "application/pdf"
                         (Finite 1200)))
                   (Sample.with_report UPLOADED)))
         = <["row-2" := file]> (files (Sample.with_report UPLOADED))
         /\ File.status file = PENDING_UPLOAD).
Proof.
  split.
  - apply (proj1 (upload_url_validates_and_creates_pending Sample.env
                    (Sample.upload_request "application/zip" (Finite 1200))
                    (Sample.with_report UPLOADED)
                    [("filename", JStr "report.pdf");
                     ("contentType", JStr "application/zip");
                     ("size", JNum (Finite 1200))]
                    eq_refl)
             "application/zip").
    + reflexivity.
    + intros H. cbn in H.
      repeat (destruct H as [H|H]; [discriminate H|]). exact H.
  - destruct (proj2 (proj2
               (upload_url_validates_and_creates_pending Sample.env
                  (Sample.upload_request "application/pdf" (Finite 1200))
                  (Sample.with_report UPLOADED)
                  [("filename", JStr "report.pdf");
                   ("contentType", JStr "application/pdf");
                   ("size", JNum (Finite 1200))]
                  eq_refl))
              (fst (route Sample.env
                      (uploadUrl_handler Sample.env
                         (Sample.upload_request "application/pdf"
                            (Finite 1200)))
                      (Sample.with_report UPLOADED)))
              (snd (route Sample.env
                      (uploadUrl_handler Sample.env
                         (Sample.upload_request "application/pdf"
                            (Finite 1200)))
                      (Sample.with_report UPLOADED))))
      as (file & _ & Hfiles & Hst & _).
    + apply surjective_pairing.
    + vm_compute. reflexivity.
    + exists file. split; [exact Hfiles | exact Hst].
Defined.

Example upload_size_at_limit :
  Response.statusCode
    (fst (route Sample.env
            (uploadUrl_handler Sample.env
               (Sample.upload_request "image/png" (Finite 104857600)))
            (Sample.with_report UPLOADED))) = 201.
Proof. vm_compute. reflexivity. Qed.

Example upload_size_over_limit :
  Response.statusCode
    (fst (route Sample.env
            (uploadUrl_handler Sample.env
               (Sample.upload_request "image/png" (Finite 104857601)))
            (Sample.with_report UPLOADED))) = 400.
Proof. vm_compute. reflexivity. Qed.

Example upload_size_fraction :
  Response.statusCode
    (fst (route Sample.env
            (uploadUrl_handler Sample.env
               (Sample.upload_request "image/png" (Finite (3 # 2))))
            (Sample.with_report UPLOADED))) = 400.
Proof. vm_compute. reflexivity. Qed.

Example upload_size_zero :
  Response.statusCode
    (fst (route Sample.env
            (uploadUrl_handler Sample.env
               (Sample.upload_request "image/png" (Finite 0)))
            (Sample.with_report UPLOADED))) = 400.
Proof. vm_compute. reflexivity. Qed.

(** ** API keys *)

Example toString_hex_sample :
  toString_hex [Byte.x00; Byte.x2a; Byte.xff] = "002aff".
Proof. reflexivity. Qed.

Example generateApiKey_sample :
  GeneratedKey.prefix (generateApiKey Sample.env) = "cv_2a2a2a2a".
Proof. reflexivity. Qed.

Example requirePermission_admin :
  requirePermission "delete" (Some Sample.globex) = Next
  /\ requirePermission "read" (Some Sample.acme_second_key) <> Next.
Proof. split; [reflexivity | discriminate]. Qed.

Lemma length_toString_hex (bs : list Byte.byte) :
  String.length (toString_hex bs) = (2 * length bs)%nat.
Proof.
  induction bs as [|b bs IH]; cbn [toString_hex String.length length].
  - reflexivity.
  - rewrite IH. lia.
Qed.

Lemma find_app_last {A} (p : A -> bool) (l : list A) (x : A) :
  p x = true ->
  exists y, find p (l ++ [x]) = Some y /\ p y = true
            /\ (find p l = None -> y = x).
Proof.
  intros Hx. induction l as [|a l IH]; cbn.
  - rewrite Hx. exists x. auto.
  - destruct (p a) eqn:Ha.
    + exists a. repeat split; auto. discriminate.
    + exact IH.
Qed.

(** C10. For the triple [generateApiKey] returns, the key starts with
    [cv_], the hash is [hashApiKey] of the key and the prefix is the first
    11 characters of the key (the key has 67 characters, the prefix 11).
    Hence, after [createApiKey] has stored the row, [validateApiKey] on the
    returned key gets past the format check and its lookup by hash finds a
    row with that hash; when no row stored before has the same hash and
    the new key is not expired, [validateApiKey] returns the created
    row. *)
Theorem generateApiKey_round_trip (env : Env) :
  let g := generateApiKey env in
  String.prefix "cv_" (GeneratedKey.key g) = true
  /\ GeneratedKey.hash g = hashApiKey env (GeneratedKey.key g)
  /\ GeneratedKey.prefix g = String.substring 0 11 (GeneratedKey.key g)
  /\ String.length (GeneratedKey.key g) = 67%nat
  /\ String.length (GeneratedKey.prefix g) = 11%nat
  /\ (forall (params : CreateApiKeyParams.t) (w w' : World)
             (created : CreatedApiKey.t) (env' : Env),
         createApiKey env params w = (Returned created, w') ->
         sha256_hex env' = sha256_hex env ->
         CreatedApiKey.key created = GeneratedKey.key g
         /\ bool_decide (CreatedApiKey.key created = EmptyString)
            || negb (String.prefix "cv_" (CreatedApiKey.key created))
            = false
         /\ (exists k : ApiKey.t,
                fst (prisma_apiKey_findFirst
                       (hashApiKey env' (CreatedApiKey.key created)) w')
                = Returned (Some k)
                /\ ApiKey.hashedKey k = GeneratedKey.hash g)
         /\ (find (fun r => String.eqb (ApiKey.hashedKey r)
                              (GeneratedKey.hash g)) (apiKeys w) = None ->
             match CreateApiKeyParams.expiresAt params with
             | Some e => now env' <= e
             | None => True
             end ->
             exists k : ApiKey.t,
               fst (validateApiKey env' (CreatedApiKey.key created) w')
               = Returned (Some k)
               /\ ApiKey.id k = CreatedApiKey.id created
               /\ ApiKey.organizationId k
                  = CreateApiKeyParams.organizationId params
               /\ ApiKey.permissions k
                  = CreateApiKeyParams.permissions params)).
Proof.
  cbn zeta.
  assert (Hfmt : String.prefix "cv_" (GeneratedKey.key (generateApiKey env))
                 = true) by reflexivity.
  assert (Hlen : String.length (GeneratedKey.key (generateApiKey env))
                 = 67%nat).
  { unfold generateApiKey. cbn [GeneratedKey.key].
    change (S (S (S (String.length (toString_hex (randomBytes env 32)))))
            = 67%nat).
    rewrite length_toString_hex. unfold randomBytes.
    rewrite length_map, length_seq. reflexivity. }
  split; [exact Hfmt|]. split; [reflexivity|]. split; [reflexivity|].
  split; [exact Hlen|]. split; [reflexivity|].
  assert (Hhash0 : GeneratedKey.hash (generateApiKey env)
                   = sha256_hex env (GeneratedKey.key (generateApiKey env)))
    by reflexivity.
  intros params w w' created env' Hcreate Hsha.
  unfold createApiKey in Hcreate. cbn zeta in Hcreate.
  remember (generateApiKey env) as g eqn:Hg. clear Hg.
  destruct (existsb _ (apiKeys w)); [discriminate Hcreate|].
  inversion Hcreate; subst created w'. clear Hcreate.
  cbn [CreatedApiKey.key CreatedApiKey.id ApiKey.id].
  assert (Hhash : hashApiKey env' (GeneratedKey.key g) = GeneratedKey.hash g).
  { unfold hashApiKey. rewrite Hsha. symmetry. exact Hhash0. }
  set (row := ApiKey.mk (newRowId env) (GeneratedKey.prefix g)
                (GeneratedKey.hash g)
                (CreateApiKeyParams.name params)
                (CreateApiKeyParams.organizationId params)
                (CreateApiKeyParams.permissions params)
                (CreateApiKeyParams.expiresAt params) None).
  destruct (find_app_last
              (fun r => String.eqb (ApiKey.hashedKey r) (GeneratedKey.hash g))
              (apiKeys w) row (String.eqb_refl _))
    as (y & Hfind & Hy & Hfresh).
  split; [reflexivity|]. split.
  { rewrite Hfmt. apply orb_false_iff. split; [|reflexivity].
    apply bool_decide_eq_false. intros Hempty.
    rewrite Hempty in Hlen. discriminate Hlen. }
  split.
  { exists y. split.
    - unfold prisma_apiKey_findFirst. cbn [fst]. rewrite Hhash.
      cbn [apiKeys set_apiKeys log_apiKeyQuery]. rewrite Hfind. reflexivity.
    - apply String.eqb_eq. exact Hy. }
  intros Hnone Hlive. specialize (Hfresh Hnone). subst y.
  exists row. split; [|repeat split].
  rewrite (validateApiKey_found env' _ _ row Hfmt).
  - assert (Hexp : is_expired env' row = false).
    { unfold is_expired. cbn [row ApiKey.expiresAt].
      destruct (CreateApiKeyParams.expiresAt params) as [e|];
        [|reflexivity].
      apply Z.ltb_ge. exact Hlive. }
    rewrite Hexp. reflexivity.
  - rewrite Hhash. cbn [apiKeys set_apiKeys log_apiKeyQuery]. exact Hfind.
Qed.

Lemma generateApiKey_round_trip_witness :
  match createApiKey Sample.env Sample.key_params
          (Sample.with_key Sample.stored_key) with
  | (Returned created, w') =>
      exists k : ApiKey.t,
        fst (validateApiKey Sample.env (CreatedApiKey.key created) w')
        = Returned (Some k)
        /\ ApiKey.organizationId k = "org-B"
  | (Thrown _, _) => False
  end.
Proof.
  destruct (createApiKey Sample.env Sample.key_params
              (Sample.with_key Sample.stored_key))
    as [[created|e] w'] eqn:Hcreate.
  - destruct (generateApiKey_round_trip Sample.env)
      as (_ & _ & _ & _ & _ & Hstored).
    destruct (Hstored Sample.key_params (Sample.with_key Sample.stored_key)
                w' created Sample.env Hcreate eq_refl)
      as (_ & _ & _ & Hvalid).
    destruct Hvalid as (k & Hk & _ & Horg & _).
    + vm_compute. reflexivity.
    + exact I.
    + exists k. split; [exact Hk | exact Horg].
  - vm_compute in Hcreate. discriminate Hcreate.
Defined.

(** * Further properties *)

(** ** Effects of the file routes *)

Lemma getFileById_cases (fileId organizationId : string) (w : World) :
  (exists f : File.t,
      getFileById fileId organizationId w = (Returned (Some f), w)
      /\ files w !! fileId = Some f
      /\ File.id f = fileId
      /\ File.organizationId f = organizationId
      /\ File.status f <> DELETED)
  \/ getFileById fileId organizationId w = (Returned None, w).
Proof.
  destruct (getFileById fileId organizationId w) as [[[f|]|e] w1] eqn:Hget.
  - assert (w1 = w) as ->.
    { rewrite <- (getFileById_world fileId organizationId w), Hget.
      reflexivity. }
    left. exists f. split; [reflexivity|]. apply getFileById_Some. exact Hget.
  - right. rewrite <- (getFileById_world fileId organizationId w), Hget.
    reflexivity.
  - exfalso. unfold getFileById in Hget.
    destruct (files w !! fileId); [destruct (_ && _)|]; discriminate Hget.
Qed.

Lemma requirePermission_refuses (permission : string)
    (auth : option AuthContext.t) (res : Response.t) :
  requirePermission permission auth = Respond res ->
  400 <= Response.statusCode res.
Proof.
  unfold requirePermission. destruct auth as [a|].
  - destruct (_ && _); [|discriminate].
    intros H. inversion H. cbn. lia.
  - intros H. inversion H. cbn. lia.
Qed.

Lemma requirePermission_Next_auth (permission : string)
    (auth : option AuthContext.t) :
  requirePermission permission auth = Next -> exists a, auth = Some a.
Proof.
  unfold requirePermission. destruct auth as [a|]; [eauto | discriminate].
Qed.

Lemma errorHandler_refuses (env : Env) (e : Exn) :
  400 <= Response.statusCode (errorHandler env e).
Proof. cbn. lia. Qed.

Lemma String_prefix_append (s t : string) : String.prefix s (s +:+ t) = true.
Proof.
  induction s as [|c s IH].
  - destruct t; reflexivity.
  - change (String c s +:+ t) with (String c (s +:+ t)).
    cbn [String.prefix].
    destruct (ascii_dec c c) as [_|Hne]; [exact IH | contradiction].
Qed.

Lemma String_append_assoc (s t u : string) :
  s +:+ (t +:+ u) = (s +:+ t) +:+ u.
Proof.
  induction s as [|c s IH]; [reflexivity|].
  change (String c (s +:+ (t +:+ u)) = String c ((s +:+ t) +:+ u)).
  rewrite IH. reflexivity.
Qed.

Ltac route_cases a Hauth :=
  unfold route, bind, req_auth; rewrite Hauth; cbn [ret].

Lemma upload_url_effect (env : Env) (req : Request.t) (a : AuthContext.t)
    (w : World) :
  Request.auth req = Some a ->
  route_effect env req w
    (fst (route env (uploadUrl_handler env req) w))
    (snd (route env (uploadUrl_handler env req) w)).
Proof.
  intros Hauth. unfold uploadUrl_handler.
  destruct (uploadRequestSchema_safeParse (Request.body req))
    as [data|errors].
  2:{ apply effect_refused. cbn. lia. }
  route_cases a Hauth. unfold createFileRecord.
  destruct (files w !! newRowId env) eqn:Hfresh.
  { apply effect_refused. apply errorHandler_refuses. }
  cbn.
  match goal with
  | |- route_effect _ _ _ _
         (set_presigned _ (set_auditLogs (_ ++ [?e]) (set_files (<[_ := ?f]> _) _))) =>
      apply (effect_created env req w a f e)
  end; try reflexivity; try assumption.
  - cbn [File.key AuthContext.organizationId].
    rewrite String_append_assoc. apply String_prefix_append.
  - repeat split.
Qed.

Lemma get_file_effect (env : Env) (req : Request.t) (a : AuthContext.t)
    (w : World) :
  Request.auth req = Some a ->
  route_effect env req w
    (fst (route env (getFile_handler env req) w))
    (snd (route env (getFile_handler env req) w)).
Proof.
  intros Hauth. unfold getFile_handler. route_cases a Hauth.
  destruct (getFileById_cases (Request.params_id req)
              (AuthContext.organizationId a) w)
    as [(f & Hget & Hrow & Hid & Horg & Hst)|Hget]; rewrite Hget.
  - cbn. apply (effect_accessed env req w a f); auto.
    + unfold visible_to. rewrite Hid. auto.
    + repeat split.
  - apply effect_refused. cbn. lia.
Qed.

Lemma download_url_effect (env : Env) (req : Request.t) (a : AuthContext.t)
    (w : World) :
  Request.auth req = Some a ->
  route_effect env req w
    (fst (route env (downloadUrl_handler env req) w))
    (snd (route env (downloadUrl_handler env req) w)).
Proof.
  intros Hauth. unfold downloadUrl_handler. route_cases a Hauth.
  destruct (getFileById_cases (Request.params_id req)
              (AuthContext.organizationId a) w)
    as [(f & Hget & Hrow & Hid & Horg & Hst)|Hget]; rewrite Hget.
  2:{ apply effect_refused. cbn. lia. }
  destruct (bool_decide (File.status f = PROCESSED)) eqn:Hp;
    destruct (bool_decide (File.status f = UPLOADED)) eqn:Hu; cbn.
  4:{ apply effect_refused. cbn. lia. }
  all: match goal with
       | |- route_effect _ _ _ _
              (set_auditLogs (_ ++ [?e]) (set_presigned (_ ++ [GetObjectCommand _ _ ?d]) _)) =>
           apply (effect_download env req w a f e _ d)
       end; auto;
    try (unfold visible_to; rewrite Hid; auto; fail);
    try (repeat split; fail).
  all: try (apply bool_decide_eq_true in Hu; auto).
  all: try (apply bool_decide_eq_true in Hp; auto).
Qed.

Lemma delete_effect (env : Env) (req : Request.t) (a : AuthContext.t)
    (w : World) :
  Request.auth req = Some a ->
  route_effect env req w
    (fst (route env (delete_handler env req) w))
    (snd (route env (delete_handler env req) w)).
Proof.
  intros Hauth. unfold delete_handler. route_cases a Hauth.
  destruct (getFileById_cases (Request.params_id req)
              (AuthContext.organizationId a) w)
    as [(f & Hget & Hrow & Hid & Horg & Hst)|Hget]; rewrite Hget.
  2:{ apply effect_refused. cbn. lia. }
  unfold softDeleteFile, bind, prisma_file_update.
  rewrite Hid, Hrow. cbn. rewrite <- Hid.
  match goal with
  | |- route_effect _ _ _ _ (set_auditLogs (_ ++ [?e]) _) =>
      apply (effect_deleted env req w a f e)
  end; auto.
  - unfold visible_to. rewrite Hid. auto.
  - repeat split; cbn; congruence.
Qed.

Lemma confirm_upload_effect (env : Env) (req : Request.t)
    (a : AuthContext.t) (w : World) :
  Request.auth req = Some a ->
  route_effect env req w
    (fst (route env (confirmUpload_handler env req) w))
    (snd (route env (confirmUpload_handler env req) w)).
Proof.
  intros Hauth.
  destruct (getFileById_cases (Request.params_id req)
              (AuthContext.organizationId a) w)
    as [(f & Hget & Hrow & Hid & Horg & Hst)|Hget].
  2:{ unfold confirmUpload_handler. route_cases a Hauth. rewrite Hget.
      apply effect_refused. cbn. lia. }
  rewrite (confirmUpload_found env req a w f Hauth Hget).
  destruct (bool_decide (File.status f = PENDING_UPLOAD)) eqn:Hpending.
  2:{ apply effect_refused. cbn. lia. }
  apply bool_decide_eq_true in Hpending.
  rewrite enqueueFileProcessing_world. cbn.
  match goal with
  | |- route_effect _ _ _ _
         (set_fileProcessingQueue (_ ++ ?js) (set_auditLogs (_ ++ [?e]) _)) =>
      apply (effect_confirmed env req w a f e js)
  end; auto.
  - unfold visible_to. rewrite Hid. auto.
  - repeat split.
  - destruct (String.prefix "image/" (File.mimeType f));
      repeat constructor.
Qed.

(** Whatever the request, a file route answers and acts in one of the ways
    of [route_effect]. *)
Lemma file_routes_effect
    (r : Env -> Request.t -> World -> Response.t * World)
    (env : Env) (req : Request.t) (w : World) :
  In r file_routes ->
  route_effect env req w (fst (r env req w)) (snd (r env req w)).
Proof.
  intros Hr. unfold file_routes in Hr. cbn [In] in Hr.
  assert (Hroute :
    forall permission handler,
      (forall a, Request.auth req = Some a ->
                 route_effect env req w
                   (fst (route env (handler env req) w))
                   (snd (route env (handler env req) w))) ->
      route_effect env req w
        (fst (file_route permission handler env req w))
        (snd (file_route permission handler env req w))).
  { intros permission handler Hh. unfold file_route.
    destruct (requirePermission permission (Request.auth req)) as [|res]
      eqn:Hperm.
    - destruct (requirePermission_Next_auth _ _ Hperm) as [a Ha].
      apply (Hh a Ha).
    - apply effect_refused. apply (requirePermission_refuses _ _ _ Hperm). }
  destruct Hr as [<-|[<-|[<-|[<-|[<-|[]]]]]]; apply Hroute; intros a Ha.
  - apply (upload_url_effect env req a w Ha).
  - apply (get_file_effect env req a w Ha).
  - apply (download_url_effect env req a w Ha).
  - apply (delete_effect env req a w Ha).
  - apply (confirm_upload_effect env req a w Ha).
Qed.

Ltac by_route_effect H :=
  match type of H with
  | route_effect _ _ _ (fst ?x) (snd ?x) =>
      let res := fresh "res" in
      let w' := fresh "w'" in
      remember (fst x) as res; remember (snd x) as w';
      destruct H
  end.

(** X1. A file route called under one organization leaves every row of
    every other organization exactly as it was. *)
Theorem file_routes_keep_other_tenants_rows
    (r : Env -> Request.t -> World -> Response.t * World)
    (env : Env) (req : Request.t) (a : AuthContext.t) (w : World)
    (k : string) (g : File.t) :
  In r file_routes ->
  Request.auth req = Some a ->
  files w !! k = Some g ->
  File.organizationId g <> AuthContext.organizationId a ->
  files (snd (r env req w)) !! k = Some g.
Proof.
  intros Hr Hauth Hrow Hother.
  pose proof (file_routes_effect r env req w Hr) as Heff.
  by_route_effect Heff; cbn [files]; try assumption.
  - rewrite lookup_insert_ne; [assumption|]. congruence.
  - rewrite lookup_insert_ne; [assumption|].
    intros <-. destruct H1 as (Hf & Horg & _). congruence.
  - rewrite lookup_insert_ne; [assumption|].
    intros <-. destruct H1 as (Hf & Horg & _). congruence.
Qed.

Lemma file_routes_keep_other_tenants_rows_witness :
  files (snd (DELETE_file Sample.env (Sample.request Sample.globex "c-7")
                (Sample.with_report UPLOADED))) !! "file-1"
  = Some (File.with_status UPLOADED Sample.report).
Proof.
  apply (file_routes_keep_other_tenants_rows DELETE_file Sample.env
           (Sample.request Sample.globex "c-7") Sample.globex).
  - right. right. right. left. reflexivity.
  - reflexivity.
  - vm_compute. reflexivity.
  - discriminate.
Defined.

(** X2. Across a call of any file route a row is never removed and only its
    status can change, from PENDING_UPLOAD to UPLOADED or from any status
    but DELETED to DELETED; a DELETED row stays as it is.  A row that
    appears is PENDING_UPLOAD. *)
Theorem file_routes_transitions
    (r : Env -> Request.t -> World -> Response.t * World)
    (env : Env) (req : Request.t) (w : World) (k : string) :
  In r file_routes ->
  match files w !! k, files (snd (r env req w)) !! k with
  | Some g, Some g' =>
      g' = g
      \/ (File.status g = PENDING_UPLOAD
          /\ g' = File.with_status UPLOADED g)
      \/ (File.status g <> DELETED /\ g' = File.with_status DELETED g)
  | Some _, None => False
  | None, Some g' => File.status g' = PENDING_UPLOAD
  | None, None => True
  end.
Proof.
  intros Hr.
  pose proof (file_routes_effect r env req w Hr) as Heff.
  by_route_effect Heff; cbn [files];
    try (destruct (files w !! k); auto; fail).
  - destruct (decide (File.id f = k)) as [<-|Hne].
    + rewrite H0, lookup_insert_eq. assumption.
    + rewrite lookup_insert_ne by assumption.
      destruct (files w !! k); auto.
  - destruct H1 as (Hf & _ & Hst).
    destruct (decide (File.id f = k)) as [<-|Hne].
    + rewrite Hf, lookup_insert_eq. auto.
    + rewrite lookup_insert_ne by assumption.
      destruct (files w !! k); auto.
  - destruct H1 as (Hf & _ & Hst).
    destruct (decide (File.id f = k)) as [<-|Hne].
    + rewrite Hf, lookup_insert_eq. auto.
    + rewrite lookup_insert_ne by assumption.
      destruct (files w !! k); auto.
Qed.

Lemma file_routes_transitions_witness :
  File.status <$>
    files (snd (POST_confirm_upload Sample.env
                  (Sample.request Sample.acme "c-8")
                  (Sample.with_report DELETED))) !! "file-1"
  = Some DELETED.
Proof.
  pose proof (file_routes_transitions POST_confirm_upload Sample.env
                (Sample.request Sample.acme "c-8")
                (Sample.with_report DELETED) "file-1") as H.
  assert (Hin : In POST_confirm_upload file_routes).
  { right. right. right. right. left. reflexivity. }
  specialize (H Hin).
  change (files (Sample.with_report DELETED) !! "file-1")
    with (Some (File.with_status DELETED Sample.report)) in H.
  destruct (files _ !! "file-1") as [g'|]; [|contradiction].
  destruct H as [->|[[H _]|[H _]]];
    [reflexivity | discriminate H | exfalso; apply H; reflexivity].
Defined.



(** ** Composition of the file operations *)

Lemma operations_on_hidden_file
    (env : Env) (req : Request.t) (a : AuthContext.t) (w : World)
    (operation : Env -> Request.t -> M Response.t) :
  In operation file_operations ->
  Request.auth req = Some a ->
  hidden_from (AuthContext.organizationId a) (Request.params_id req) w ->
  route env (operation env req) w = (NOT_FOUND_response, w).
Proof.
  intros Hop Hauth Hhid.
  apply getFileById_hidden in Hhid.
  unfold file_operations in Hop. cbn [In] in Hop.
  destruct Hop as [<-|[<-|[<-|[<-|[]]]]];
    unfold route, getFile_handler, downloadUrl_handler, delete_handler,
      confirmUpload_handler, bind, req_auth;
    rewrite Hauth; cbn [ret]; rewrite Hhid; reflexivity.
Qed.


Lemma downloadUrl_found
    (env : Env) (req : Request.t) (a : AuthContext.t) (w : World)
    (f : File.t) :
  Request.auth req = Some a ->
  getFileById (Request.params_id req) (AuthContext.organizationId a) w
    = (Returned (Some f), w) ->
  route env (downloadUrl_handler env req) w
  = if negb (bool_decide (File.status f = PROCESSED))
       && negb (bool_decide (File.status f = UPLOADED))
    then
      (Response.mk 400
         (ErrorBody "INVALID_STATE"
            ("File is not ready for download (status: "
               +:+ FileStatus_to_string (File.status f) +:+ ")")), w)
    else
      let command :=
        GetObjectCommand (configured_bucket env) (File.key f)
          (if bool_decide (File.originalName f = EmptyString) then None
           else Some ("attachment; filename=" +:+ dquote
                        +:+ File.originalName f +:+ dquote)) in
      (Response.mk 200
         (DownloadUrlBody (getSignedUrl env command (downloadExpiry env))
            (toISOString env (now env + downloadExpiry env * 1000))
            (File.originalName f)),
       mkWorld (files w)
         (auditLogs w
            ++ [AuditLog.mk (Some (File.id f))
                  (AuthContext.organizationId a)
                  AuditActions.DOWNLOAD_REQUESTED (AuthContext.apiKeyId a)
                  None None None (Request.correlationId req)])
         (fileProcessingQueue w) (presigned w ++ [command])
         (apiKeys w) (apiKeyQueries w)).
Proof.
  intros Hauth Hget.
  unfold downloadUrl_handler. route_cases a Hauth. rewrite Hget.
  destruct (negb (bool_decide (File.status f = PROCESSED))
            && negb (bool_decide (File.status f = UPLOADED)));
    reflexivity.
Qed.



(** X5. From request to download.  After an upload-url call answered 201,
    a caller of the same organization asking a download URL for the new
    file is refused with INVALID_STATE and nothing changes; its
    confirmation is answered 200; a download URL asked after that is
    answered 200, and the GET it signs is for the very object key the PUT
    was signed for.  The file is then UPLOADED. *)
Theorem upload_confirm_download
    (env1 env2 env3 env4 : Env) (req1 req2 : Request.t)
    (a1 a2 : AuthContext.t) (w : World) :
  Request.auth req1 = Some a1 ->
  Request.auth req2 = Some a2 ->
  AuthContext.organizationId a2 = AuthContext.organizationId a1 ->
  Request.params_id req2 = newRowId env1 ->
  Response.statusCode (fst (route env1 (uploadUrl_handler env1 req1) w))
    = 201 ->
  let up := route env1 (uploadUrl_handler env1 req1) w in
  let early := route env2 (downloadUrl_handler env2 req2) (snd up) in
  let conf := route env3 (confirmUpload_handler env3 req2) (snd early) in
  let down := route env4 (downloadUrl_handler env4 req2) (snd conf) in
  exists (key contentType : string) (size : Z) (disposition : option string),
    Response.statusCode (fst early) = 400
    /\ error_code (fst early) = Some "INVALID_STATE"
    /\ snd early = snd up
    /\ Response.statusCode (fst conf) = 200
    /\ Response.statusCode (fst down) = 200
    /\ presigned (snd down)
       = presigned w
         ++ [PutObjectCommand (configured_bucket env1) key contentType size
               None;
             GetObjectCommand (configured_bucket env4) key disposition]
    /\ status_of (newRowId env1) (snd down) = Some UPLOADED.
Proof.
  intros Hauth1 Hauth2 Horg Hid Hcode up early conf down.
  pose proof (upload_url_effect env1 req1 a1 w Hauth1) as Heff.
  fold up in Heff, Hcode.
  destruct up as [res1 w1] eqn:Hup. cbn [fst snd] in *.
  destruct Heff as [res Hge|a f e url Ha Hfree Hfid Hforg Hfst _ _ _
                   | | | | ];
    try (cbn in Hcode; discriminate Hcode); [lia|].
  clear Hcode.
  set (w1 := mkWorld (<[File.id f := f]> (files w)) (auditLogs w ++ [e])
               (fileProcessingQueue w)
               (presigned w
                  ++ [PutObjectCommand (configured_bucket env1) (File.key f)
                        (File.mimeType f) (File.size f) None])
               (apiKeys w) (apiKeyQueries w)) in *.
  assert (Horg2 : File.organizationId f = AuthContext.organizationId a2).
  { rewrite Horg, Hforg. congruence. }
  assert (Hget1 :
    getFileById (Request.params_id req2) (AuthContext.organizationId a2) w1
    = (Returned (Some f), w1)).
  { apply getFileById_Some. rewrite Hid, <- Hfid. subst w1. cbn [files].
    rewrite lookup_insert_eq. repeat split; auto.
    all: rewrite ?Hfst; discriminate. }
  assert (Hearly :
    early
    = (Response.mk 400
         (ErrorBody "INVALID_STATE"
            "File is not ready for download (status: PENDING_UPLOAD)"),
       w1)).
  { subst early. rewrite (downloadUrl_found env2 req2 a2 w1 f Hauth2 Hget1).
    rewrite Hfst. reflexivity. }
  assert (Hconf :
    exists (res : Response.t) (al : list AuditLog.t) (q : list Job.t),
      conf
      = (res,
         mkWorld (<[File.id f := File.with_status UPLOADED f]> (files w1)) al
           q (presigned w1) (apiKeys w1) (apiKeyQueries w1))
      /\ Response.statusCode res = 200).
  { subst conf. rewrite Hearly. cbn [snd].
    rewrite (confirmUpload_found env3 req2 a2 w1 f Hauth2 Hget1).
    rewrite bool_decide_true by assumption.
    rewrite enqueueFileProcessing_world.
    eexists _, _, _. split; reflexivity. }
  destruct Hconf as (res2 & al & q & Hconf & Hcode2).
  set (w2 := mkWorld (<[File.id f := File.with_status UPLOADED f]> (files w1))
               al q (presigned w1) (apiKeys w1) (apiKeyQueries w1)) in *.
  assert (Hget2 :
    getFileById (Request.params_id req2) (AuthContext.organizationId a2) w2
    = (Returned (Some (File.with_status UPLOADED f)), w2)).
  { apply getFileById_Some. rewrite Hid, <- Hfid. subst w2. cbn [files].
    rewrite lookup_insert_eq. repeat split; auto; discriminate. }
  exists (File.key f), (File.mimeType f), (File.size f),
    (if bool_decide (File.originalName f = EmptyString) then None
     else Some ("attachment; filename=" +:+ dquote
                  +:+ File.originalName f +:+ dquote)).
  rewrite Hearly. cbn [fst snd].
  split; [reflexivity|]. split; [reflexivity|]. split; [reflexivity|].
  split; [rewrite Hconf; exact Hcode2|].
  subst down. rewrite Hconf. cbn [snd].
  rewrite (downloadUrl_found env4 req2 a2 w2 (File.with_status UPLOADED f)
             Hauth2 Hget2).
  change (File.status (File.with_status UPLOADED f)) with UPLOADED.
  rewrite (bool_decide_false (UPLOADED = PROCESSED)) by discriminate.
  rewrite (bool_decide_true (UPLOADED = UPLOADED)) by reflexivity.
  cbn [negb andb fst snd presigned files]. split; [reflexivity|]. split.
  - subst w2 w1. cbn [presigned]. rewrite <- app_assoc. reflexivity.
  - unfold status_of. subst w2. cbn [files]. rewrite <- Hfid.
    rewrite lookup_insert_eq. reflexivity.
Qed.

Lemma upload_confirm_download_witness :
  let up :=
    route Sample.env
      (uploadUrl_handler Sample.env
         (Sample.upload_request "application/pdf" (Finite 1200)))
      (Sample.with_report UPLOADED) in
  let req2 := Request.mk (Some Sample.acme_second_key) "row-2" None JNull in
  let conf := route Sample.env (confirmUpload_handler Sample.env req2) (snd up) in
  status_of "row-2"
    (snd (route Sample.env (downloadUrl_handler Sample.env req2) (snd conf)))
  = Some UPLOADED.
Proof.
  cbn zeta.
  destruct (upload_confirm_download Sample.env Sample.env Sample.env
              Sample.env
              (Sample.upload_request "application/pdf" (Finite 1200))
              (Request.mk (Some Sample.acme_second_key) "row-2" None JNull)
              Sample.acme Sample.acme_second_key
              (Sample.with_report UPLOADED) eq_refl eq_refl eq_refl eq_refl)
    as (key & ct & size & disp & _ & _ & Hsame & _ & _ & _ & Hst).
  - vm_compute. reflexivity.
  - rewrite Hsame in Hst. exact Hst.
Defined.

(** ** Codes and statuses of the answers *)

Lemma errorHandler_coded (env : Env) (e : Exn) :
  coded_answer (errorHandler env e).
Proof. unfold coded_answer. cbn. auto 10. Qed.

Ltac coded_now := solve [unfold coded_answer; cbn; auto 10].

Lemma file_handler_coded
    (handler : Env -> Request.t -> M Response.t) (env : Env)
    (req : Request.t) (w : World) :
  In handler file_handlers ->
  coded_answer (fst (route env (handler env req) w)).
Proof.
  intros Hh. unfold file_handlers in Hh. cbn [In] in Hh.
  destruct Hh as [<-|[<-|[<-|[<-|[<-|[]]]]]].
  - unfold uploadUrl_handler.
    destruct (uploadRequestSchema_safeParse (Request.body req));
      [|coded_now].
    unfold route, bind, req_auth.
    destruct (Request.auth req) as [a|]; [|coded_now].
    cbn [ret]. unfold createFileRecord.
    destruct (files w !! newRowId env); coded_now.
  - unfold getFile_handler, route, bind, req_auth.
    destruct (Request.auth req) as [a|]; [|coded_now]. cbn [ret].
    destruct (getFileById_cases (Request.params_id req)
                (AuthContext.organizationId a) w)
      as [(f & Hget & _)|Hget]; rewrite Hget; coded_now.
  - unfold downloadUrl_handler, route, bind, req_auth.
    destruct (Request.auth req) as [a|]; [|coded_now]. cbn [ret].
    destruct (getFileById_cases (Request.params_id req)
                (AuthContext.organizationId a) w)
      as [(f & Hget & _)|Hget]; rewrite Hget; [|coded_now].
    destruct (negb (bool_decide (File.status f = PROCESSED))
              && negb (bool_decide (File.status f = UPLOADED)));
      coded_now.
  - unfold delete_handler, route, bind, req_auth.
    destruct (Request.auth req) as [a|]; [|coded_now]. cbn [ret].
    destruct (getFileById_cases (Request.params_id req)
                (AuthContext.organizationId a) w)
      as [(f & Hget & Hrow & Hid & _)|Hget]; rewrite Hget; [|coded_now].
    unfold softDeleteFile, bind, prisma_file_update.
    rewrite Hid, Hrow. coded_now.
  - unfold route, confirmUpload_handler, bind, req_auth.
    destruct (Request.auth req) as [a|] eqn:Hauth; [|coded_now]. cbn [ret].
    destruct (getFileById_cases (Request.params_id req)
                (AuthContext.organizationId a) w)
      as [(f & Hget & Hrow & Hid & _)|Hget]; rewrite Hget; [|coded_now].
    destruct (negb (bool_decide (File.status f = PENDING_UPLOAD)));
      [coded_now|].
    unfold markFileUploaded, updateFileStatus, prisma_file_update.
    rewrite Hid, Hrow. cbn [createAuditLog].
    rewrite enqueueFileProcessing_world. coded_now.
Qed.

Lemma authMiddleware_coded (organizationName : string -> string)
    (env : Env) (x_api_key : option string) (w : World) (res : Response.t) :
  fst (authMiddleware organizationName env x_api_key w)
    = Unauthenticated res ->
  coded_answer res.
Proof.
  unfold authMiddleware. cbn zeta.
  destruct x_api_key as [apiKey|];
    [destruct (bool_decide (apiKey = EmptyString))|];
    try (intros H; inversion H; coded_now).
  destruct (validateApiKey env apiKey w) as [[[k|]|e] w'];
    intros H; inversion H; coded_now.
Qed.

Lemma requirePermission_coded (permission : string)
    (auth : option AuthContext.t) (res : Response.t) :
  requirePermission permission auth = Respond res -> coded_answer res.
Proof.
  unfold requirePermission. destruct auth as [a|].
  - destruct (_ && _); [|discriminate]. intros H; inversion H. coded_now.
  - intros H; inversion H. coded_now.
Qed.

(** X6. Every answer of a mounted file route either carries an error body
    whose code and status are one of VALIDATION_ERROR 400, INVALID_STATE
    400, AUTHENTICATION_ERROR 401, AUTHORIZATION_ERROR 403, NOT_FOUND 404
    and INTERNAL_ERROR 500, or carries no error and has status 200, 201 or
    204.  Where the code is that of an error class of errors.ts, the status
    is the status of that class. *)
Theorem file_answers_are_coded
    (organizationName : string -> string) (permission : string)
    (handler : Env -> Request.t -> M Response.t) (env : Env)
    (x_api_key : option string) (req : Request.t) (w : World) :
  In handler file_handlers ->
  let res :=
    fst (files_endpoint organizationName permission handler env x_api_key
           req w) in
  coded_answer res
  /\ (forall e : CloudVaultError.t,
         error_class e ->
         error_code res = Some (CloudVaultError.code e) ->
         Response.statusCode res = CloudVaultError.statusCode e).
Proof.
  intros Hh res.
  assert (Hcoded : coded_answer res).
  { subst res. unfold files_endpoint.
    destruct (authMiddleware organizationName env x_api_key w)
      as [[a|r] w'] eqn:Hauth.
    - unfold file_route.
      destruct (requirePermission permission
                  (Request.auth (with_auth a req))) as [|r] eqn:Hperm.
      + apply (file_handler_coded handler env _ w' Hh).
      + apply (requirePermission_coded _ _ _ Hperm).
    - apply (authMiddleware_coded organizationName env x_api_key w).
      rewrite Hauth. reflexivity. }
  split; [exact Hcoded|].
  intros e He Hcode. unfold coded_answer in Hcoded. rewrite Hcode in Hcoded.
  destruct He; cbn in Hcoded |- *;
    repeat (destruct Hcoded as [Hcoded|Hcoded];
            [inversion Hcoded; reflexivity|]);
    contradiction.
Qed.

Lemma file_answers_are_coded_witness :
  coded_answer
    (fst (files_endpoint (fun _ => "Acme") "read" getFile_handler
            Sample.env (Some "not-a-key")
            (Sample.request Sample.acme "c-1")
            (Sample.with_report UPLOADED))).
Proof.
  apply (file_answers_are_coded (fun _ => "Acme") "read" getFile_handler
           Sample.env (Some "not-a-key")
           (Sample.request Sample.acme "c-1")
           (Sample.with_report UPLOADED)).
  right. left. reflexivity.
Defined.

(** ** The upload request schema *)






(** ** Listing files *)









Example listFiles_sample :
  map SerializedFile.id
    (match fst (listFiles Sample.createdAt "org-A" None Sample.library) with
     | Returned r => FileList.data r
     | Thrown _ => []
     end)
  = ["file-2"; "file-1"].
Proof. vm_compute. reflexivity. Qed.





Example GET_files_status_DELETED_refused :
  fst (GET_files Sample.ToNumber Sample.createdAt Sample.env
         (Some Sample.acme)
         (ListQuery.mk None None (Some (QueryString "DELETED")))
         Sample.library)
  = ListInvalid 400 "VALIDATION_ERROR" "Invalid query parameters"
      [QueryIssue.mk query_invalid_enum_value ["status"]].
Proof. vm_compute. reflexivity. Qed.

(** ** Authentication and the credential store *)

Lemma touch_keeps_columns (env : Env) (id : string) (ks : list ApiKey.t) :
  map without_lastUsedAt
    (map (fun k =>
            if String.eqb (ApiKey.id k) id
            then ApiKey.with_lastUsedAt (Some (now env)) k
            else k) ks)
  = map without_lastUsedAt ks.
Proof.
  rewrite map_map. apply map_ext. intros k.
  destruct (String.eqb (ApiKey.id k) id); reflexivity.
Qed.

Lemma validateApiKey_cases (env : Env) (key : string) (w : World) :
  (fst (validateApiKey env key w) = Returned None
   \/ exists k : ApiKey.t,
        fst (validateApiKey env key w) = Returned (Some k)
        /\ String.prefix "cv_" key = true
        /\ find (fun r => String.eqb (ApiKey.hashedKey r)
                            (hashApiKey env key)) (apiKeys w) = Some k
        /\ is_expired env k = false)
  /\ files (snd (validateApiKey env key w)) = files w
  /\ auditLogs (snd (validateApiKey env key w)) = auditLogs w
  /\ fileProcessingQueue (snd (validateApiKey env key w))
     = fileProcessingQueue w
  /\ presigned (snd (validateApiKey env key w)) = presigned w
  /\ map without_lastUsedAt (apiKeys (snd (validateApiKey env key w)))
     = map without_lastUsedAt (apiKeys w).
Proof.
  unfold validateApiKey.
  destruct (bool_decide (key = EmptyString)); cbn [orb];
    [repeat split; auto|].
  destruct (String.prefix "cv_" key) eqn:Hfmt; cbn [negb];
    [|repeat split; auto].
  unfold bind, prisma_apiKey_findFirst.
  destruct (find _ (apiKeys w)) as [k|] eqn:Hfind; [|repeat split; auto].
  destruct (is_expired env k) eqn:Hexp; [repeat split; auto|].
  unfold touch_lastUsedAt.
  destruct (lastUsedWriteFails env); cbn.
  - repeat split; auto. right. exists k. auto.
  - rewrite touch_keeps_columns. repeat split; auto. right. exists k. auto.
Qed.

(** X11. [validateApiKey] never throws and never answers a key it should
    not: a row it returns is a stored row whose hash is the hash of the
    presented key, which starts with [cv_], and whose expiry, if any, is
    not before the current time.  Whatever it answers, the registry, the
    audit log, the queue and the signer are untouched and the stored keys
    keep every column but [lastUsedAt]. *)
Theorem validateApiKey_sound (env : Env) (key : string) (w : World) :
  let out := validateApiKey env key w in
  (exists r : option ApiKey.t, fst out = Returned r)
  /\ (forall k : ApiKey.t,
         fst out = Returned (Some k) ->
         In k (apiKeys w)
         /\ ApiKey.hashedKey k = hashApiKey env key
         /\ String.prefix "cv_" key = true
         /\ match ApiKey.expiresAt k with
            | Some e => now env <= e
            | None => True
            end)
  /\ files (snd out) = files w
  /\ auditLogs (snd out) = auditLogs w
  /\ fileProcessingQueue (snd out) = fileProcessingQueue w
  /\ presigned (snd out) = presigned w
  /\ map without_lastUsedAt (apiKeys (snd out))
     = map without_lastUsedAt (apiKeys w).
Proof.
  cbn zeta.
  destruct (validateApiKey_cases env key w) as (Hres & Hframe).
  split; [|split; [|exact Hframe]].
  - destruct Hres as [H|(k & H & _)]; rewrite H; eauto.
  - intros k Hk.
    destruct Hres as [H|(k' & H & Hfmt & Hfind & Hexp)];
      rewrite H in Hk; inversion Hk; subst k'.
    apply find_some in Hfind. destruct Hfind as [Hin Hhash].
    apply String.eqb_eq in Hhash.
    repeat split; auto.
    unfold is_expired in Hexp.
    destruct (ApiKey.expiresAt k) as [e|]; [|exact I].
    apply Z.ltb_ge in Hexp. exact Hexp.
Qed.

(** X12. End to end, a key cannot reach another tenant's file.  If every
    stored key whose hash matches the presented key belongs to an
    organization other than the file's, a mounted get, download-url, delete
    or confirm-upload route answers 401, 403 or 404, and the registry, the
    audit log, the queue and the signer stay as they were. *)
Theorem endpoint_isolates_tenants
    (organizationName : string -> string) (permission : string)
    (operation : Env -> Request.t -> M Response.t) (env : Env)
    (x_api_key : option string) (req : Request.t) (w : World) (f : File.t) :
  In operation file_operations ->
  files w !! Request.params_id req = Some f ->
  (forall (key : string) (k : ApiKey.t),
      x_api_key = Some key ->
      In k (apiKeys w) ->
      ApiKey.hashedKey k = hashApiKey env key ->
      ApiKey.organizationId k <> File.organizationId f) ->
  let out :=
    files_endpoint organizationName permission operation env x_api_key req
      w in
  In (Response.statusCode (fst out)) [401; 403; 404]
  /\ files (snd out) = files w
  /\ auditLogs (snd out) = auditLogs w
  /\ fileProcessingQueue (snd out) = fileProcessingQueue w
  /\ presigned (snd out) = presigned w.
Proof.
  intros Hop Hrow Hkeys. cbn zeta.
  unfold files_endpoint, authMiddleware. cbn zeta.
  destruct x_api_key as [key|]; [|cbn; auto 10].
  destruct (bool_decide (key = EmptyString)); [cbn; auto 10|].
  destruct (validateApiKey_cases env key w)
    as (Hres & Hfiles & Haudit & Hqueue & Hsigned & _).
  destruct (validateApiKey env key w) as [out w'] eqn:Hval.
  cbn [fst snd] in *.
  destruct Hres as [->|(k & -> & _ & Hfind & _)].
  { cbn. auto 10. }
  apply find_some in Hfind. destruct Hfind as [Hin Hhash].
  apply String.eqb_eq in Hhash.
  pose proof (Hkeys key k eq_refl Hin Hhash) as Hother.
  unfold file_route.
  destruct (requirePermission permission _) as [|res] eqn:Hperm.
  - set (a := AuthContext.mk (ApiKey.organizationId k) (ApiKey.id k)
                (ApiKey.permissions k)
                (organizationName (ApiKey.organizationId k))).
    rewrite (operations_on_hidden_file env (with_auth a req) a w' operation
               Hop eq_refl).
    + cbn. auto 10.
    + apply (hidden_other_tenant _ _ _ f).
      * cbn. rewrite Hfiles. exact Hrow.
      * cbn. congruence.
  - cbn [fst snd]. split; [|auto].
    unfold requirePermission in Hperm. cbn in Hperm.
    destruct (_ && _); inversion Hperm. cbn. auto.
Qed.

Lemma endpoint_isolates_tenants_witness :
  Response.statusCode
    (fst (files_endpoint (fun _ => "Acme") "read" downloadUrl_handler
            Sample.env (Some "cv_89abcdef-secret")
            (Request.mk None "file-9" None JNull) Sample.library))
  = 404.
Proof.
  destruct (endpoint_isolates_tenants (fun _ => "Acme") "read"
              downloadUrl_handler Sample.env (Some "cv_89abcdef-secret")
              (Request.mk None "file-9" None JNull) Sample.library
              Sample.contract) as [Hcode _].
  - right. left. reflexivity.
  - vm_compute. reflexivity.
  - intros key k Hkey Hin Hhash. inversion Hkey; subst key.
    cbn in Hin. destruct Hin as [<-|[<-|[]]].
    + vm_compute in Hhash. discriminate Hhash.
    + discriminate.
  - vm_compute. reflexivity.
Defined.

Lemma find_app_found {A} (p : A -> bool) (l l' : list A) (x : A) :
  find p l = Some x -> find p (l ++ l') = Some x.
Proof.
  induction l as [|a l IH]; cbn; [discriminate|].
  destruct (p a); auto.
Qed.

Lemma validateApiKey_result (env : Env) (key : string) (w : World) :
  fst (validateApiKey env key w)
  = Returned
      (if bool_decide (key = EmptyString) || negb (String.prefix "cv_" key)
       then None
       else
         match find (fun r => String.eqb (ApiKey.hashedKey r)
                                (hashApiKey env key)) (apiKeys w) with
         | Some k => if is_expired env k then None else Some k
         | None => None
         end).
Proof.
  unfold validateApiKey.
  destruct (bool_decide (key = EmptyString) || negb (String.prefix "cv_" key));
    [reflexivity|].
  unfold bind, prisma_apiKey_findFirst.
  destruct (find _ (apiKeys w)) as [k|]; [|reflexivity].
  destruct (is_expired env k); [reflexivity|].
  unfold touch_lastUsedAt. destruct (lastUsedWriteFails env); reflexivity.
Qed.

(** X13. [createApiKey] either throws, on a clash of the generated id, and
    leaves the stored keys as they were, or appends one row: the row of the
    requested organization and permissions, holding the hash of the
    returned key and its first 11 characters, never used yet.  Creating a
    key does not change what [validateApiKey] answers for a key that
    matched a stored row before. *)
Theorem createApiKey_appends (env : Env) (params : CreateApiKeyParams.t)
    (w : World) :
  match createApiKey env params w with
  | (Returned created, w') =>
      (exists row : ApiKey.t,
          apiKeys w' = apiKeys w ++ [row]
          /\ ApiKey.id row = CreatedApiKey.id created
          /\ ApiKey.id row = newRowId env
          /\ Forall (fun k => ApiKey.id k <> ApiKey.id row) (apiKeys w)
          /\ ApiKey.organizationId row
             = CreateApiKeyParams.organizationId params
          /\ ApiKey.permissions row = CreateApiKeyParams.permissions params
          /\ ApiKey.expiresAt row = CreateApiKeyParams.expiresAt params
          /\ ApiKey.hashedKey row
             = hashApiKey env (CreatedApiKey.key created)
          /\ ApiKey.keyPrefix row
             = String.substring 0 11 (CreatedApiKey.key created)
          /\ ApiKey.lastUsedAt row = None)
      /\ files w' = files w
      /\ (forall (env' : Env) (key : string) (k : ApiKey.t),
             find (fun r => String.eqb (ApiKey.hashedKey r)
                              (hashApiKey env' key)) (apiKeys w) = Some k ->
             fst (validateApiKey env' key w')
             = fst (validateApiKey env' key w))
  | (Thrown _, w') =>
      apiKeys w' = apiKeys w
      /\ files w' = files w
      /\ exists k : ApiKey.t, In k (apiKeys w) /\ ApiKey.id k = newRowId env
  end.
Proof.
  unfold createApiKey. cbn zeta.
  destruct (existsb _ (apiKeys w)) eqn:Hclash.
  - split; [reflexivity|]. split; [reflexivity|].
    apply existsb_exists in Hclash. destruct Hclash as (k & Hin & Hid).
    apply String.eqb_eq in Hid. eauto.
  - split; [|split; [reflexivity|]].
    + eexists. split; [reflexivity|].
      cbn [ApiKey.id CreatedApiKey.id ApiKey.organizationId
           ApiKey.permissions ApiKey.expiresAt ApiKey.hashedKey
           ApiKey.keyPrefix ApiKey.lastUsedAt CreatedApiKey.key].
      repeat split; auto.
      apply List.Forall_forall. intros k Hin Hid.
      assert (Hex : existsb (fun k0 => String.eqb (ApiKey.id k0) (newRowId env))
                      (apiKeys w) = true).
      { apply existsb_exists. exists k. split; [exact Hin|].
        apply String.eqb_eq. exact Hid. }
      congruence.
    + intros env' key k Hfind.
      rewrite !validateApiKey_result.
      cbn [apiKeys set_apiKeys log_apiKeyQuery].
      rewrite (find_app_found _ _ _ _ Hfind), Hfind. reflexivity.
Qed.

Lemma find_filter_other (id : string) (p : ApiKey.t -> bool)
    (ks : list ApiKey.t) :
  (forall k, In k ks -> p k = true -> ApiKey.id k = id) ->
  find p
    (List.filter (fun k => negb (bool_decide (ApiKey.id k = id))) ks)
  = None.
Proof.
  intros Hall. induction ks as [|k ks IH]; [reflexivity|].
  cbn [List.filter].
  assert (IH' := IH (fun k0 H => Hall k0 (or_intror H))).
  destruct (bool_decide (ApiKey.id k = id)) eqn:Hid; cbn [negb].
  - exact IH'.
  - cbn [find]. destruct (p k) eqn:Hp; [|exact IH'].
    apply bool_decide_eq_false in Hid. exfalso. apply Hid.
    apply (Hall k); [left; reflexivity | exact Hp].
Qed.

(** X14. Revoking an API key.  A key cannot revoke itself (400
    INVALID_OPERATION); an id that is not a key of the caller's
    organization is answered 404; in both cases nothing changes.
    Otherwise the answer is 204 and exactly the rows of that id are gone:
    the caller's own key remains, and with unique ids so does every key of
    every other organization.  From then on a secret that matched only the
    revoked key no longer authenticates. *)
Theorem revokeApiKey_effect (env : Env) (a : AuthContext.t) (id : string)
    (w : World) :
  let out := admin_route env (revokeApiKey_handler env (Some a) id) w in
  let own k :=
    bool_decide (ApiKey.id k = id)
    && bool_decide (ApiKey.organizationId k = AuthContext.organizationId a) in
  (id = AuthContext.apiKeyId a ->
   out = (AdminPlain
            (Response.mk 400
               (ErrorBody "INVALID_OPERATION"
                  "Cannot delete the API key currently in use")), w))
  /\ (id <> AuthContext.apiKeyId a ->
      find own (apiKeys w) = None ->
      out = (AdminPlain
               (Response.mk 404 (ErrorBody "NOT_FOUND" "API key not found")),
             w))
  /\ (id <> AuthContext.apiKeyId a ->
      find own (apiKeys w) <> None ->
      fst out = AdminPlain (Response.mk 204 EmptyBody)
      /\ files (snd out) = files w
      /\ (forall k : ApiKey.t,
             In k (apiKeys (snd out))
             <-> In k (apiKeys w) /\ ApiKey.id k <> id)
      /\ (forall k : ApiKey.t,
             In k (apiKeys w) ->
             ApiKey.id k = AuthContext.apiKeyId a ->
             In k (apiKeys (snd out)))
      /\ (NoDup (map ApiKey.id (apiKeys w)) ->
          forall k : ApiKey.t,
            In k (apiKeys w) ->
            ApiKey.organizationId k <> AuthContext.organizationId a ->
            In k (apiKeys (snd out)))
      /\ (forall (env' : Env) (key : string),
             (forall k : ApiKey.t,
                 In k (apiKeys w) ->
                 ApiKey.hashedKey k = hashApiKey env' key ->
                 ApiKey.id k = id) ->
             fst (validateApiKey env' key (snd out)) = Returned None)).
Proof.
  cbn zeta. unfold admin_route, revokeApiKey_handler.
  split; [|split].
  - intros ->. rewrite bool_decide_true by reflexivity. reflexivity.
  - intros Hne Hnone. rewrite bool_decide_false by assumption.
    rewrite Hnone. reflexivity.
  - intros Hne Hsome. rewrite bool_decide_false by assumption.
    destruct (find _ (apiKeys w)) as [k0|] eqn:Hfind; [|contradiction].
    cbn [fst snd files apiKeys set_apiKeys].
    assert (Hmem : forall k : ApiKey.t,
      In k (List.filter (fun k => negb (bool_decide (ApiKey.id k = id)))
              (apiKeys w))
      <-> In k (apiKeys w) /\ ApiKey.id k <> id).
    { intros k. rewrite filter_In.
      rewrite negb_true_iff, bool_decide_eq_false. reflexivity. }
    split; [reflexivity|]. split; [reflexivity|]. split; [exact Hmem|].
    split; [|split].
    + intros k Hin Hid. apply Hmem. split; [exact Hin | congruence].
    + intros Hnodup k Hin Horg. apply Hmem. split; [exact Hin|].
      intros Hid.
      apply find_some in Hfind. destruct Hfind as [Hin0 Hown].
      apply andb_true_iff in Hown. destruct Hown as [Hid0 Horg0].
      apply bool_decide_eq_true in Hid0, Horg0.
      assert (k = k0).
      { clear -Hnodup Hin Hin0 Hid Hid0.
        induction (apiKeys w) as [|x l IH]; [contradiction|].
        cbn in Hnodup. apply NoDup_cons in Hnodup.
        destruct Hnodup as [Hx Hl].
        destruct Hin as [->|Hin], Hin0 as [->|Hin0]; auto.
        - exfalso. apply Hx. apply list_elem_of_In, in_map_iff.
          exists k0. split; [congruence | exact Hin0].
        - exfalso. apply Hx. apply list_elem_of_In, in_map_iff.
          exists k. split; [congruence | exact Hin]. }
      subst k0. contradiction.
    + intros env' key Honly. rewrite validateApiKey_result.
      cbn [apiKeys set_apiKeys].
      rewrite find_filter_other.
      * destruct (_ || _); reflexivity.
      * intros k Hin Hhash. apply String.eqb_eq in Hhash.
        apply (Honly k Hin Hhash).
Qed.

Lemma revokeApiKey_effect_witness :
  let out :=
    admin_route Sample.env
      (revokeApiKey_handler Sample.env (Some Sample.acme) "key-2")
      Sample.library in
  fst out = AdminPlain (Response.mk 204 EmptyBody)
  /\ fst (validateApiKey Sample.env "cv_89abcdef-secret" (snd out))
     = Returned None.
Proof.
  destruct (revokeApiKey_effect Sample.env Sample.acme "key-2"
              Sample.library) as (_ & _ & Hrevoked).
  destruct Hrevoked as (Hcode & _ & _ & _ & _ & Hauth).
  - discriminate.
  - vm_compute. discriminate.
  - split; [exact Hcode|]. apply Hauth.
    intros k Hin Hhash. cbn in Hin. destruct Hin as [<-|[<-|[]]].
    + vm_compute in Hhash. discriminate Hhash.
    + reflexivity.
Defined.

Lemma filter_valid_permissions_valid (ps : list Json) :
  Forall (fun p => In p validPermissions) (filter_valid_permissions ps).
Proof.
  induction ps as [|p ps IH]; cbn [filter_valid_permissions].
  - constructor.
  - destruct p; try exact IH.
    destruct (includes validPermissions s) eqn:Hin; [|exact IH].
    constructor; [|exact IH]. apply includes_In. exact Hin.
Qed.

(** X15. Creating an API key through the admin route.  When the answer is
    201, one row has been appended to the stored keys: it belongs to the
    caller's organization, its permissions are the ones the answer shows
    and each of them is one of upload, read, delete and admin (only
    [read] when the body gives no array), and it stores the hash of the
    returned secret.  Any other answer has a status of 400 or more and
    stores no key. *)
Theorem createApiKey_handler_effect (newDate : Json -> option Z) (env : Env)
    (a : AuthContext.t) (body : Json) (w : World) :
  match admin_route env (createApiKey_handler newDate env (Some a) body)
          w with
  | (ApiKeyCreated code created _, w') =>
      code = 201
      /\ exists row : ApiKey.t,
           apiKeys w' = apiKeys w ++ [row]
           /\ ApiKey.id row = CreatedApiKey.id created
           /\ ApiKey.organizationId row = AuthContext.organizationId a
           /\ ApiKey.permissions row = CreatedApiKey.permissions created
           /\ Forall (fun p => In p validPermissions)
                (ApiKey.permissions row)
           /\ (match body_prop "permissions" body with
               | Some (JArr _) => True
               | _ => ApiKey.permissions row = ["read"]
               end)
           /\ body_prop "name" body = Some (JStr (ApiKey.name row))
           /\ ApiKey.hashedKey row
              = hashApiKey env (CreatedApiKey.key created)
  | (AdminPlain res, w') =>
      400 <= Response.statusCode res /\ apiKeys w' = apiKeys w
  | (ApiKeyList _ _, _) => False
  end.
Proof.
  unfold admin_route, createApiKey_handler, bind.
  destruct body as [| | | | |kvs];
    try solve [cbn; split; [lia | reflexivity]].
  cbn [body_prop].
  destruct (get_prop "name" kvs) as [[| | |n| |]|] eqn:Hname;
    try solve [cbn; split; [lia | reflexivity]].
  destruct (bool_decide (n = EmptyString));
    [solve [cbn; split; [lia | reflexivity]]|].
  destruct (get_prop "permissions" kvs) as [[| | | |ps|]|] eqn:Hperms;
    (destruct (get_prop "expiresAt" kvs) as [v|];
     [destruct (truthy v); [destruct (newDate v) as [t|]|]|]);
    cbn [ret throw]; unfold createApiKey; cbn zeta;
    try solve [cbn; split; [lia | reflexivity]];
    destruct (existsb _ (apiKeys w));
    try solve [cbn; split; [lia | reflexivity]];
    (cbn; split; [reflexivity|]; eexists; split; [reflexivity|];
     cbn; repeat split; auto using filter_valid_permissions_valid;
     repeat constructor; cbn; auto).
Qed.

(** X16. The list of API keys is given only to a key that holds [admin]
    itself; it shows the keys of that key's organization and no other,
    newest first.  No other answer of the route is below 400, and the
    registry is never touched. *)
Theorem admin_lists_own_keys (organizationName : string -> string)
    (env : Env) (x_api_key : option string) (w : World) :
  match admin_endpoint organizationName env x_api_key
          (listApiKeys_handler env) w with
  | (ApiKeyList code data, w') =>
      code = 200 /\ files w' = files w
      /\ exists (key : string) (k : ApiKey.t),
           x_api_key = Some key
           /\ fst (validateApiKey env key w) = Returned (Some k)
           /\ In "admin" (ApiKey.permissions k)
           /\ data
              = map summary_of
                  (rev (List.filter
                          (fun r =>
                             bool_decide
                               (ApiKey.organizationId r
                                = ApiKey.organizationId k))
                          (apiKeys w')))
  | (AdminPlain res, w') =>
      400 <= Response.statusCode res /\ files w' = files w
  | (ApiKeyCreated _ _ _, _) => False
  end.
Proof.
  unfold admin_endpoint, authMiddleware. cbn zeta.
  destruct x_api_key as [key|]; [|cbn; split; [lia | reflexivity]].
  destruct (bool_decide (key = EmptyString));
    [cbn; split; [lia | reflexivity]|].
  destruct (validateApiKey_cases env key w) as (Hres & Hfiles & _).
  destruct (validateApiKey env key w) as [out w'] eqn:Hval.
  cbn [fst snd] in *.
  destruct Hres as [->|(k & -> & _)];
    [cbn; split; [lia | exact Hfiles]|].
  unfold requirePermission.
  destruct (includes _ "admin") eqn:Hadmin; cbn [negb andb];
    [|cbn; split; [lia | exact Hfiles]].
  cbn. split; [reflexivity|]. split; [exact Hfiles|].
  exists key, k. split; [reflexivity|].
  split; [rewrite Hval; reflexivity|].
  split; [apply includes_In; exact Hadmin | reflexivity].
Qed.

(** ** Hexadecimal encoding of the random bytes *)

Lemma byte_of_hex_digits (b : Byte.byte) :
  byte_of_hex (hex_digit (Byte.to_N b / 16)) (hex_digit (Byte.to_N b mod 16))
  = Some b.
Proof. destruct b; vm_compute; reflexivity. Qed.

Lemma hex_digit_alphabet (n : N) :
  In (hex_digit n) (list_ascii_of_string "0123456789abcdef").
Proof.
  unfold hex_digit.
  repeat match goal with
         | |- context [match ?x with _ => _ end] => destruct x
         end; cbn; auto 20.
Qed.

(** X17. [toString('hex')] writes two characters of [0-9a-f] per byte and
    loses nothing: different byte strings give different texts.  Hence two
    calls of [generateApiKey] return the same key only if they drew the
    same 32 random bytes. *)
Theorem toString_hex_injective :
  (forall bs bs' : list Byte.byte,
      toString_hex bs = toString_hex bs' -> bs = bs')
  /\ (forall bs : list Byte.byte,
         String.length (toString_hex bs) = (2 * length bs)%nat
         /\ Forall (fun c => In c (list_ascii_of_string "0123456789abcdef"))
              (list_ascii_of_string (toString_hex bs)))
  /\ (forall env1 env2 : Env,
         GeneratedKey.key (generateApiKey env1)
         = GeneratedKey.key (generateApiKey env2) ->
         randomBytes env1 32 = randomBytes env2 32).
Proof.
  assert (Hinj : forall bs bs' : list Byte.byte,
             toString_hex bs = toString_hex bs' -> bs = bs').
  { induction bs as [|b bs IH]; intros [|b' bs'] H;
      cbn [toString_hex] in H; try discriminate H; [reflexivity|].
    inversion H as [[Hhi Hlo Hrest]].
    pose proof (byte_of_hex_digits b) as Hb.
    rewrite Hhi, Hlo, byte_of_hex_digits in Hb.
    inversion Hb. f_equal. apply IH. exact Hrest. }
  split; [exact Hinj|]. split.
  - intros bs. split; [apply length_toString_hex|].
    induction bs as [|b bs IH]; cbn [toString_hex list_ascii_of_string].
    + constructor.
    + constructor; [apply hex_digit_alphabet|].
      constructor; [apply hex_digit_alphabet | exact IH].
  - intros env1 env2 Hkey. apply Hinj.
    unfold generateApiKey in Hkey. cbn [GeneratedKey.key] in Hkey.
    apply (String.app_inj "cv_") in Hkey. exact Hkey.
Qed.

(** ** Producer and consumer of the jobs *)

Lemma processFileJob_known (env : Env) (job : Job.t) (w : World) :
  In (Job.name job)
    [FILE_JOBS.VALIDATE_FILE; FILE_JOBS.GENERATE_CHECKSUM;
     FILE_JOBS.EXTRACT_METADATA; FILE_JOBS.GENERATE_THUMBNAIL] ->
  exists result : Json, processFileJob env job w = (Returned result, w).
Proof.
  intros Hname. unfold processFileJob.
  cbn [In] in Hname.
  destruct Hname as [<-|[<-|[<-|[<-|[]]]]]; cbn; eauto.
Qed.

(** X18. Every job [enqueueFileProcessing] adds is one the worker knows:
    [processFileJob] returns for it, in every world, and does not change
    the world.  A job of any other name makes [processFileJob] throw
    [Unknown job type], naming it.  The thumbnail job returns a result
    marked as skipped whatever the file is. *)
Theorem enqueued_jobs_are_known (env : Env) (params : FileJobData.t)
    (w : World) :
  (exists added : list Job.t,
      fileProcessingQueue (snd (enqueueFileProcessing params w))
      = fileProcessingQueue w ++ added
      /\ Forall
           (fun job =>
              Job.data job = params
              /\ forall w0 : World,
                   exists result : Json,
                     processFileJob env job w0 = (Returned result, w0))
           added)
  /\ (forall (job : Job.t) (w0 : World),
         ~ In (Job.name job)
             ["validate-file"; "generate-checksum"; "extract-metadata";
              "generate-thumbnail"] ->
         processFileJob env job w0
         = (Thrown (Error ("Unknown job type: " +:+ Job.name job)), w0))
  /\ (forall (job : Job.t) (w0 : World),
         Job.name job = "generate-thumbnail" ->
         exists reason : string,
           processFileJob env job w0
           = (Returned (JObj [("skipped", JBool true);
                              ("reason", JStr reason)]), w0)).
Proof.
  split; [|split].
  - rewrite enqueueFileProcessing_world.
    cbn [snd fileProcessingQueue set_fileProcessingQueue].
    eexists. split; [reflexivity|].
    destruct (String.prefix "image/" (FileJobData.mimeType params));
      repeat constructor;
      intros w0; apply processFileJob_known; cbn; auto.
  - intros job w0 Hname. unfold processFileJob.
    cbn [In] in Hname.
    destruct (String.eqb_spec (Job.name job) FILE_JOBS.VALIDATE_FILE)
      as [H|_]; [exfalso; apply Hname; rewrite H; cbn; auto|].
    destruct (String.eqb_spec (Job.name job) FILE_JOBS.GENERATE_CHECKSUM)
      as [H|_]; [exfalso; apply Hname; rewrite H; cbn; auto|].
    destruct (String.eqb_spec (Job.name job) FILE_JOBS.EXTRACT_METADATA)
      as [H|_]; [exfalso; apply Hname; rewrite H; cbn; auto|].
    destruct (String.eqb_spec (Job.name job) FILE_JOBS.GENERATE_THUMBNAIL)
      as [H|_]; [exfalso; apply Hname; rewrite H; cbn; auto 6|].
    reflexivity.
  - intros job w0 Hname. unfold processFileJob. rewrite Hname.
    eexists. reflexivity.
Qed.

(** ** Reading the audit log *)


(** ** Interleaved confirmations *)

Lemma confirm_step_account (env : Env) (req : Request.t) (fileId : string)
    (pc : ConfirmPc) (w : World) (name : string) :
  In name required_tasks ->
  Request.params_id req = fileId ->
  suspended_on req pc ->
  suspended_on req (fst (confirm_step env req pc w))
  /\ (length (jobs_for name fileId
                (fileProcessingQueue (snd (confirm_step env req pc w))))
      + answered_200 pc
      = length (jobs_for name fileId (fileProcessingQueue w))
        + answered_200 (fst (confirm_step env req pc w)))%nat.
Proof.
  intros Hname Hid Hpc.
  destruct pc as [|a f|a f u|a f u|res]; cbn [confirm_step].
  - destruct (Request.auth req) as [a|]; [|cbn; auto].
    destruct (getFileById_cases (Request.params_id req)
                (AuthContext.organizationId a) w)
      as [(f & Hget & _ & Hfid & _)|Hget]; rewrite Hget; [|cbn; auto].
    destruct (negb (bool_decide (File.status f = PENDING_UPLOAD)));
      cbn; auto.
  - unfold markFileUploaded, updateFileStatus, prisma_file_update.
    destruct (files w !! File.id f); cbn; auto.
  - cbn. auto.
  - rewrite enqueueFileProcessing_world. cbn [fst snd suspended_on].
    split; [exact I|].
    pose proof (jobs_for_enqueued name
                  (FileJobData.mk (File.id f) (AuthContext.organizationId a)
                     (File.key f) (File.bucket f) (File.mimeType f)
                     (Request.correlationId req)) w Hname) as Hcount.
    rewrite enqueueFileProcessing_world in Hcount.
    cbn [snd FileJobData.fileId] in Hcount.
    cbn in Hpc. rewrite Hid in Hpc. rewrite Hpc in Hcount |- *.
    rewrite Hcount. unfold answered_200, confirmed.
    cbn [Response.statusCode].
    rewrite bool_decide_true by reflexivity. lia.
  - cbn. auto.
Qed.

(** X20. However two confirmations of the same file id are interleaved,
    each required task is in the queue once more for every one of them
    that has been answered 200, and no more: a request enqueues exactly
    when it succeeds. *)
Theorem interleaved_confirmations_account
    (env : Env) (req1 req2 : Request.t) (schedule : list Turn) (w : World)
    (name : string) :
  Request.params_id req2 = Request.params_id req1 ->
  In name required_tasks ->
  let s := interleave env req1 req2 schedule w in
  length (jobs_for name (Request.params_id req1)
            (fileProcessingQueue (world s)))
  = (length (jobs_for name (Request.params_id req1)
               (fileProcessingQueue w))
     + answered_200 (pc1 s) + answered_200 (pc2 s))%nat.
Proof.
  intros Hid Hname. cbn zeta. unfold interleave.
  set (fileId := Request.params_id req1) in *.
  assert (Hgen : forall (s0 : InFlight),
    suspended_on req1 (pc1 s0) ->
    suspended_on req2 (pc2 s0) ->
    let s := fold_left (fun s t => resume env req1 req2 t s) schedule s0 in
    (length (jobs_for name fileId (fileProcessingQueue (world s)))
     + answered_200 (pc1 s0) + answered_200 (pc2 s0)
     = length (jobs_for name fileId (fileProcessingQueue (world s0)))
       + answered_200 (pc1 s) + answered_200 (pc2 s))%nat).
  { induction schedule as [|t schedule IH]; intros s0 H1 H2.
    - cbn. lia.
    - cbn [fold_left].
      destruct t; cbn [resume].
      + destruct (confirm_step_account env req1 fileId (pc1 s0) (world s0)
                    name Hname eq_refl H1) as [H1' Hcount].
        destruct (confirm_step env req1 (pc1 s0) (world s0)) as [pc' w'].
        cbn [fst snd] in *.
        specialize (IH (mkInFlight pc' (pc2 s0) w') H1' H2).
        cbn zeta in IH. cbn [pc1 pc2 world] in IH. lia.
      + destruct (confirm_step_account env req2 fileId (pc2 s0) (world s0)
                    name Hname Hid H2) as [H2' Hcount].
        destruct (confirm_step env req2 (pc2 s0) (world s0)) as [pc' w'].
        cbn [fst snd] in *.
        specialize (IH (mkInFlight (pc1 s0) pc' w') H1 H2').
        cbn zeta in IH. cbn [pc1 pc2 world] in IH. lia. }
  specialize (Hgen (mkInFlight AtGetFileById AtGetFileById w) I I).
  cbn zeta in Hgen. cbn [pc1 pc2 world answered_200 confirmed] in Hgen.
  lia.
Qed.

Lemma interleaved_confirmations_account_witness :
  let s :=
    interleave Sample.env
      (Sample.request Sample.acme "c-1")
      (Sample.request Sample.acme_second_key "c-2")
      [FirstRequest; SecondRequest; SecondRequest; FirstRequest;
       FirstRequest; SecondRequest; FirstRequest]
      (Sample.with_report PENDING_UPLOAD) in
  length (jobs_for "generate-checksum"
            (Request.params_id (Sample.request Sample.acme "c-1"))
            (fileProcessingQueue (world s)))
  = (length (jobs_for "generate-checksum"
               (Request.params_id (Sample.request Sample.acme "c-1"))
               (fileProcessingQueue (Sample.with_report PENDING_UPLOAD)))
     + answered_200 (pc1 s) + answered_200 (pc2 s))%nat.
Proof.
  exact (interleaved_confirmations_account Sample.env
           (Sample.request Sample.acme "c-1")
           (Sample.request Sample.acme_second_key "c-2")
           [FirstRequest; SecondRequest; SecondRequest; FirstRequest;
            FirstRequest; SecondRequest; FirstRequest]
           (Sample.with_report PENDING_UPLOAD) "generate-checksum"
           eq_refl (or_intror (or_introl eq_refl))).
Defined.

(** ** The authentication middleware *)

(** X21. [authMiddleware] lets a request through only with the context of
    a stored key that [validateApiKey] returned for the presented header:
    the context carries that row's organization, id and permissions.
    Every other request is answered 401 AUTHENTICATION_ERROR, never 500;
    when the header is absent or empty nothing is sent to the credential
    store. *)
Theorem authMiddleware_context (organizationName : string -> string)
    (env : Env) (x_api_key : option string) (w : World) :
  match authMiddleware organizationName env x_api_key w with
  | (Authenticated a, w') =>
      exists (key : string) (k : ApiKey.t),
        x_api_key = Some key
        /\ validateApiKey env key w = (Returned (Some k), w')
        /\ In k (apiKeys w)
        /\ AuthContext.organizationId a = ApiKey.organizationId k
        /\ AuthContext.apiKeyId a = ApiKey.id k
        /\ AuthContext.permissions a = ApiKey.permissions k
  | (Unauthenticated res, w') =>
      res = Response.mk 401
              (ErrorBody "AUTHENTICATION_ERROR"
                 (match x_api_key with
                  | Some (String _ _) => "Invalid or expired API key."
                  | _ => "API key required. Provide X-API-Key header."
                  end))
      /\ match x_api_key with
         | Some (String _ _) => files w' = files w
         | _ => w' = w
         end
  end.
Proof.
  unfold authMiddleware. cbn zeta.
  destruct x_api_key as [[|c key]|];
    [rewrite bool_decide_true by reflexivity; auto | | auto].
  rewrite (bool_decide_false (String c key = EmptyString))
    by (intros Hempty; discriminate Hempty).
  destruct (validateApiKey_cases env (String c key) w)
    as (Hres & Hfiles & _).
  destruct (validateApiKey env (String c key) w) as [out w'] eqn:Hval.
  cbn [fst snd] in *.
  destruct Hres as [->|(k & -> & _ & Hfind & _)]; [auto|].
  apply find_some in Hfind. destruct Hfind as [Hin _].
  exists (String c key), k. auto 10.
Qed.
